(** * Fusion Companies Dashboard: the data pipeline of [fusion_dashboard.py]

    A shallow embedding of the script's data handling (load guard, sidebar
    filters, metric cards, company detail, value counts, tab-local search and
    threshold filters, display formatting) together with the properties of
    the specification that speak about it.

    Modelling conventions.
    - Python [float] and numpy [float64] values are IEEE-754 binary64 numbers,
      taken from the Standard Library's executable specification
      ([spec_float] with [prec = 53], [emax = 1024]).  A missing numeric cell
      of the data frame is NaN, as [pandas.json_normalize] produces it.  A
      numeric column without a missing cell and with integers only is int64
      in pandas; its cells are represented by their binary64 values, which
      gives the same totals as long as these stay below [2^53].
    - A cell of the two columns the sidebar reads, [fuel_source] and
      [general_approach], is a text or is missing ([cell]).  The other text
      columns and the milestones are taken to be present in every record, and
      every column the script reads to exist in the data frame; what the
      script does otherwise is not described here.
    - The calls into Streamlit and Plotly are recorded, not performed.  The
      one failure of theirs that is modelled is Plotly's check of the bubble
      sizes of the scatter chart.
    - Python [int] values are [Z].
    - Python [str] values are [string]; text is taken to be ASCII, so that a
      character of the model is a character of Python.
    - A computation of the script either returns, raises a Python exception,
      or falls outside the fragment of [eval] / [re] syntax that is modelled
      here ([Unmodelled]); nothing is proved about the last case.
    - [main] is a function from what the fetch delivered and what the user
      entered in the widgets to the sequence of Streamlit calls it performs
      and its outcome. *)

From Stdlib Require Import ZArith List String Ascii Bool Lia.
From Stdlib Require Import Floats.SpecFloat.
From Stdlib Require Import DecimalString DecimalN.
From Stdlib Require Import QArith Qround Qpower.
From Stdlib Require Import Sorted Permutation.
Import ListNotations.

Local Open Scope string_scope.
Local Open Scope Z_scope.

(** ** Outcomes of Python computations *)

Inductive exn : Type :=
| SyntaxError
| ValueError
| OverflowError
| IndexError
| re_error.

Inductive outcome (A : Type) : Type :=
| Returned (a : A)
| Raised (e : exn)
| Unmodelled.

Arguments Returned {A} a.
Arguments Raised {A} e.
Arguments Unmodelled {A}.

Definition obind {A B : Type} (m : outcome A) (k : A -> outcome B) : outcome B :=
  match m with
  | Returned a => k a
  | Raised e => Raised e
  | Unmodelled => Unmodelled
  end.

(** ** Python numbers and strings *)

Module Py.

Definition float : Type := spec_float.
Definition prec : Z := 53.
Definition emax : Z := 1024.

Definition nan : float := S754_nan.

(** [float(n)] for an [int] [n]: the nearest binary64 number. *)
Definition float_of_int (n : Z) : float := binary_normalize prec emax n 0 false.

Definition fadd (x y : float) : float := SFadd prec emax x y.
Definition fmul (x y : float) : float := SFmul prec emax x y.
Definition fdiv (x y : float) : float := SFdiv prec emax x y.

(** [x >= y] *)
Definition fge (x y : float) : bool := SFleb y x.

Definition isnan (x : float) : bool :=
  match x with
  | S754_nan => true
  | _ => false
  end.

(** The literals [1e6] and [1e9]. *)
Definition lit_1e6 : float := float_of_int 1000000.
Definition lit_1e9 : float := float_of_int 1000000000.

(** [int(x)] for a float [x]: the integer part, the fraction dropped. *)
Definition int (x : float) : outcome Z :=
  match x with
  | S754_nan => Raised ValueError
  | S754_infinity _ => Raised OverflowError
  | S754_zero _ => Returned 0
  | S754_finite s m e => Returned (cond_Zopp s (Z.shiftl (Zpos m) e))
  end.

(** Decimal digits of a natural number, ["0"] for zero. *)
Definition digits (n : Z) : string :=
  NilZero.string_of_uint (N.to_uint (Z.to_N n)).

(** [str(n)] for an [int] [n], which is also what [f"{n}"] gives. *)
Definition str_int (n : Z) : string :=
  if n <? 0 then "-" ++ digits (- n) else digits n.

Fixpoint zeros (k : nat) : string :=
  match k with
  | O => ""
  | S k' => String "0" (zeros k')
  end.

(** [s] padded on the left with zeros up to width [k]. *)
Definition pad_zeros (k : nat) (s : string) : string :=
  zeros (k - String.length s) ++ s.

(** The integer nearest to [m * 2^e * 10^d], ties to even. *)
Definition round_scaled (d : nat) (m : positive) (e : Z) : Z :=
  let num := Zpos m * 10 ^ Z.of_nat d in
  if 0 <=? e then num * 2 ^ e
  else
    let den := 2 ^ (- e) in
    let q := num / den in
    let r := num mod den in
    match 2 * r ?= den with
    | Lt => q
    | Eq => if Z.even q then q else q + 1
    | Gt => q + 1
    end.

(** The digits of a value given in units of [10^-d]: integer part, and
    after a point the [d] decimals, when [d] is not zero. *)
Definition fixed_digits (d : nat) (n : Z) : string :=
  match d with
  | O => digits n
  | S _ =>
      digits (n / 10 ^ Z.of_nat d) ++ "." ++
      pad_zeros d (digits (n mod 10 ^ Z.of_nat d))
  end.

Definition sign_str (s : bool) : string := if s then "-" else "".

(** [format(x, ".{d}f")]: correctly rounded fixed-point notation. *)
Definition format_f (d : nat) (x : float) : string :=
  match x with
  | S754_nan => "nan"
  | S754_infinity s => sign_str s ++ "inf"
  | S754_zero s => sign_str s ++ fixed_digits d 0
  | S754_finite s m e => sign_str s ++ fixed_digits d (round_scaled d m e)
  end.

(** [s[:4]] *)
Definition slice4 (s : string) : string := substring 0 4 s.

(** The characters of a string, each as a string of length one: what
    iterating over a [str] yields. *)
Fixpoint chars (s : string) : list string :=
  match s with
  | EmptyString => []
  | String c s' => String c EmptyString :: chars s'
  end.

(** *** The fragment of [eval] that is modelled

    The built-in [eval] runs its argument as a Python expression.  The
    model covers the expressions a milestone list is written with: a string
    literal in single or double quotes (printable ASCII, no backslash), and
    a list display of such literals, with spaces allowed around the tokens
    and a comma allowed after the last item.  A text that is empty or all
    spaces is a syntax error.  Everything else is [Unmodelled]. *)

Inductive object : Type :=
| Str (s : string)
| StrList (l : list string).

Definition quote1 : ascii := ascii_of_nat 39.
Definition quote2 : ascii := ascii_of_nat 34.
Definition backslash : ascii := ascii_of_nat 92.
Definition newline : ascii := ascii_of_nat 10.

Definition is_quote (c : ascii) : bool :=
  Ascii.eqb c quote1 || Ascii.eqb c quote2.

Definition printable (c : ascii) : bool :=
  ((32 <=? nat_of_ascii c)%nat && (nat_of_ascii c <=? 126)%nat)%bool.

Fixpoint skip_spaces (s : string) : string :=
  match s with
  | String " " s' => skip_spaces s'
  | _ => s
  end.

(** After an opening quote [q]: the characters up to the closing quote, and
    the text that follows it. *)
Fixpoint scan_literal (q : ascii) (s : string) : option (string * string) :=
  match s with
  | EmptyString => None
  | String c s' =>
      if Ascii.eqb c q then Some ("", s')
      else if printable c && negb (Ascii.eqb c backslash) then
        match scan_literal q s' with
        | Some (body, rest) => Some (String c body, rest)
        | None => None
        end
      else None
  end.

(** After ["["] or after a comma: the remaining items up to ["]"], and the
    text that follows it. *)
Fixpoint list_items (fuel : nat) (s : string) : option (list string * string) :=
  match fuel with
  | O => None
  | S fuel' =>
      match skip_spaces s with
      | EmptyString => None
      | String c s1 =>
          if Ascii.eqb c "]" then Some ([], s1)
          else if is_quote c then
            match scan_literal c s1 with
            | None => None
            | Some (body, s2) =>
                match skip_spaces s2 with
                | EmptyString => None
                | String d s3 =>
                    if Ascii.eqb d "]" then Some ([body], s3)
                    else if Ascii.eqb d "," then
                      match list_items fuel' s3 with
                      | Some (l, rest) => Some (body :: l, rest)
                      | None => None
                      end
                    else None
                end
            end
          else None
      end
  end.

Definition blank (s : string) : bool :=
  match skip_spaces s with
  | EmptyString => true
  | _ => false
  end.

Definition eval (src : string) : outcome object :=
  match skip_spaces src with
  | EmptyString => Raised SyntaxError
  | String c s1 =>
      if Ascii.eqb c "[" then
        match list_items (S (String.length s1)) s1 with
        | Some (l, rest) => if blank rest then Returned (StrList l) else Unmodelled
        | None => Unmodelled
        end
      else if is_quote c then
        match scan_literal c s1 with
        | Some (body, rest) => if blank rest then Returned (Str body) else Unmodelled
        | None => Unmodelled
        end
      else Unmodelled
  end.

(** What a [for] loop over the object visits. *)
Definition iterate (o : object) : list string :=
  match o with
  | Str s => chars s
  | StrList l => l
  end.

(** *** The fragment of [re] that is modelled

    [re.compile(pat, re.IGNORECASE)] followed by [search].  The model
    covers patterns made of ordinary characters and the wildcard ["."]; a
    pattern that begins with a repetition operator is rejected by [re]
    ("nothing to repeat"); a pattern with any other special character is
    [Unmodelled]. *)

Inductive atom : Type :=
| Lit (c : ascii)
| AnyChar.

Definition repetition (c : ascii) : bool :=
  Ascii.eqb c "*" || Ascii.eqb c "+" || Ascii.eqb c "?".

Definition special (c : ascii) : bool :=
  existsb (Ascii.eqb c)
    (list_ascii_of_string ".^$*+?{}[]|()" ++ [backslash])%list.

Fixpoint atoms (pat : string) : option (list atom) :=
  match pat with
  | EmptyString => Some []
  | String c pat' =>
      match atoms pat' with
      | None => None
      | Some l =>
          if Ascii.eqb c "." then Some (AnyChar :: l)
          else if printable c && negb (special c) then Some (Lit c :: l)
          else None
      end
  end.

Definition re_compile (pat : string) : outcome (list atom) :=
  match pat with
  | EmptyString => Returned []
  | String c _ =>
      if repetition c then Raised re_error
      else
        match atoms pat with
        | Some l => Returned l
        | None => Unmodelled
        end
  end.

Definition lower (c : ascii) : ascii :=
  let n := nat_of_ascii c in
  if ((65 <=? n)%nat && (n <=? 90)%nat)%bool then ascii_of_nat (n + 32) else c.

Definition atom_matches (a : atom) (c : ascii) : bool :=
  match a with
  | Lit l => Ascii.eqb (lower l) (lower c)
  | AnyChar => negb (Ascii.eqb c newline)
  end.

(** The pattern matches at the start of [s]. *)
Fixpoint match_here (p : list atom) (s : string) : bool :=
  match p, s with
  | [], _ => true
  | _ :: _, EmptyString => false
  | a :: p', String c s' => atom_matches a c && match_here p' s'
  end.

(** [regex.search(s) is not None] *)
Fixpoint search (p : list atom) (s : string) : bool :=
  match_here p s ||
  match s with
  | EmptyString => false
  | String _ s' => search p s'
  end.

End Py.

(** ** Cells of a categorical column *)

(** A cell of a text column of the data frame: the text of the record, or
    NaN when the record has no such key.  (A [null] of the document is
    Python's [None] instead, which pandas treats as NaN in the operations
    below and an f-string writes as [None].) *)
Inductive cell : Type :=
| text (s : string)
| missing.

(** Equality as pandas' hash tables see it: NaN is one key. *)
Definition cell_eqb (a b : cell) : bool :=
  match a, b with
  | text s, text s' => String.eqb s s'
  | missing, missing => true
  | _, _ => false
  end.

Definition cell_dec (a b : cell) : {a = b} + {a <> b}.
Proof.
  decide equality. apply string_dec.
Defined.

(** [notna] *)
Definition is_text (a : cell) : bool :=
  match a with
  | text _ => true
  | missing => false
  end.

(** What an f-string shows for the cell. *)
Definition str_cell (a : cell) : string :=
  match a with
  | text s => s
  | missing => "nan"
  end.

(** ** The pandas operations the script calls *)

Module Pd.

(** [Series.isin(values)], at one row; a NaN among the values matches a
    missing cell. *)
Definition isin (values : list cell) (v : cell) : bool :=
  existsb (cell_eqb v) values.

(** [Series.unique().tolist()]: a hash table filled row after row, so the
    distinct values come in the order in which they first appear; NaN is
    one of them when a cell is missing. *)
Definition unique (col : list cell) : list cell :=
  fold_left (fun seen v => if isin seen v then seen else seen ++ [v])%list col [].

(** Element-wise [&] and [|] of two boolean series. *)
Fixpoint mask_and (a b : list bool) : list bool :=
  match a, b with
  | x :: a', y :: b' => (x && y) :: mask_and a' b'
  | _, _ => []
  end.

Fixpoint mask_or (a b : list bool) : list bool :=
  match a, b with
  | x :: a', y :: b' => (x || y) :: mask_or a' b'
  | _, _ => []
  end.

(** [df[mask]]: the rows at which the mask is true, in their order. *)
Fixpoint select {A : Type} (rows : list A) (mask : list bool) : list A :=
  match rows, mask with
  | r :: rows', b :: mask' =>
      if b then r :: select rows' mask' else select rows' mask'
  | _, _ => []
  end.

(** The cells that are not NaN: reductions skip the others. *)
Definition present (col : list Py.float) : list Py.float :=
  filter (fun x => negb (Py.isnan x)) col.

(** numpy's addition of a float64 array ([pairwise_sum]).  Fewer than 8
    numbers are added one after the other, from zero.  Up to 128 numbers are
    added in eight interleaved partial sums, which are then added in pairs,
    and the numbers left after the last complete group of eight are added to
    the result.  A longer array is cut in two, the first part a multiple of
    eight in length, and the sums of the parts are added. *)
Fixpoint add_groups (fuel : nat) (r l : list Py.float) : list Py.float * list Py.float :=
  match fuel with
  | O => (r, l)
  | S fuel' =>
      if (List.length l <? 8)%nat then (r, l)
      else add_groups fuel' (map (fun p => Py.fadd (fst p) (snd p)) (combine r (firstn 8 l)))
                      (skipn 8 l)
  end.

Definition add_in_pairs (r : list Py.float) : Py.float :=
  match r with
  | [r0; r1; r2; r3; r4; r5; r6; r7] =>
      Py.fadd (Py.fadd (Py.fadd r0 r1) (Py.fadd r2 r3))
              (Py.fadd (Py.fadd r4 r5) (Py.fadd r6 r7))
  | _ => S754_zero false
  end.

Fixpoint pairwise_sum (fuel : nat) (l : list Py.float) : Py.float :=
  let n := List.length l in
  if (n <? 8)%nat then fold_left Py.fadd l (S754_zero false)
  else if (n <=? 128)%nat then
    let (r, rest) := add_groups n (firstn 8 l) (skipn 8 l) in
    fold_left Py.fadd rest (add_in_pairs r)
  else
    match fuel with
    | O => S754_zero false
    | S fuel' =>
        let n2 := (n / 2 - (n / 2) mod 8)%nat in
        Py.fadd (pairwise_sum fuel' (firstn n2 l)) (pairwise_sum fuel' (skipn n2 l))
    end.

(** [Series.sum()] of a float64 column: the missing cells count as zero and
    the array is added to zero as numpy adds it.  A column in which every
    cell is an integer is int64 in pandas and is added exactly, wrapping at
    2^63; such a column is represented here by its float64 values, which
    gives the same total when the cells are not negative and add up to no
    more than 2^53.  The zeros the additions start from are positive; numpy
    versions differ in the sign of a total that is zero. *)
Definition sum (col : list Py.float) : Py.float :=
  Py.fadd (S754_zero false)
          (pairwise_sum (List.length col)
             (map (fun x => if Py.isnan x then S754_zero false else x) col)).

Definition count (col : list Py.float) : Z :=
  Z.of_nat (List.length (present col)).

(** [Series.mean()]: sum of the present values over their number, NaN when
    there is none. *)
Definition mean (col : list Py.float) : Py.float :=
  if count col =? 0 then Py.nan
  else Py.fdiv (sum col) (Py.float_of_int (count col)).

Definition larger (x y : Py.float) : Py.float :=
  if SFltb x y then y else x.

(** [Series.max()]: NaN when no value is present. *)
Definition max (col : list Py.float) : Py.float :=
  match present col with
  | [] => Py.nan
  | x :: l => fold_left larger l x
  end.

(** [Series.value_counts()].  The missing cells are dropped ([dropna=True]
    is the default).  A table of counters is filled with the others row
    after row, a new value taking the next free place; then
    [sort_values(ascending=False)] orders the table by count.  What the
    library promises of that sort is the descending order; [value_counts_with]
    takes the sort as an argument.  [value_counts] is the instance in which
    pandas' reverse, ascending sort, reverse is done with a sort that keeps
    entries of equal count in the order it received them, which the
    library does not promise. *)
Fixpoint bump (k : cell) (t : list (cell * nat)) : list (cell * nat) :=
  match t with
  | [] => [(k, 1%nat)]
  | (k', n) :: t' =>
      if cell_eqb k k' then (k', S n) :: t' else (k', n) :: bump k t'
  end.

Definition tally (col : list cell) : list (cell * nat) :=
  fold_left (fun t k => bump k t) col [].

Fixpoint insert_asc (x : cell * nat) (l : list (cell * nat)) : list (cell * nat) :=
  match l with
  | [] => [x]
  | y :: l' =>
      if (snd x <=? snd y)%nat then x :: y :: l' else y :: insert_asc x l'
  end.

Fixpoint sort_asc (l : list (cell * nat)) : list (cell * nat) :=
  match l with
  | [] => []
  | x :: l' => insert_asc x (sort_asc l')
  end.

Definition sort_desc (t : list (cell * nat)) : list (cell * nat) :=
  rev (sort_asc (rev t)).

Definition value_counts_with (sort : list (cell * nat) -> list (cell * nat))
  (col : list cell) : list (cell * nat) :=
  sort (tally (filter is_text col)).

Definition value_counts (col : list cell) : list (cell * nat) :=
  value_counts_with sort_desc col.

(** [Series.str.contains(pat, case=False)]: [regex=True] is the default, so
    [pat] is compiled once as a regular expression that ignores case, and
    searched for in every cell. *)
Definition str_contains_nocase (col : list string) (pat : string) : outcome (list bool) :=
  obind (Py.re_compile pat) (fun p => Returned (map (Py.search p) col)).

End Pd.

(** ** The catalog *)

(** The [milestones_past_12_months] cell: text, or already a list. *)
Inductive milestones_cell : Type :=
| MilestonesStr (s : string)
| MilestonesList (l : list string).

(** One row of the data frame [pd.json_normalize] builds from a company. *)
Record company : Type := {
  name : string;
  description : string;
  location : string;
  year_founded : string;
  employees : Py.float;
  funding_amount : Py.float;                (* column 'funding.amount' *)
  general_approach : cell;
  specific_approach : string;
  fuel_source : cell;
  commercial_output_mwe : Py.float;         (* column 'commercial_output.mwe' *)
  pilot_plant_timeline : string;
  milestones_past_12_months : milestones_cell
}.

Definition DataFrame : Type := list company.

Definition col {A : Type} (field : company -> A) (df : DataFrame) : list A :=
  map field df.

(** [df.empty] and [len(df)] *)
Definition empty (df : DataFrame) : bool :=
  match df with
  | [] => true
  | _ :: _ => false
  end.

Definition len (df : DataFrame) : Z := Z.of_nat (List.length df).

(** Truth value of a [str]. *)
Definition truthy (s : string) : bool :=
  match s with
  | EmptyString => false
  | String _ _ => true
  end.

(** ** Streamlit calls and the script monad *)

Inductive chart : Type :=
| funding_chart (names : list string) (amounts : list Py.float)
| scatter_chart (points : list (Py.float * Py.float * Py.float * string))
| pie_chart (counts : list (cell * nat))
| fuel_chart (counts : list (cell * nat)).

(** One row of the table shown in the third tab. *)
Record display_row : Type := {
  Company : string;
  Location : string;
  Founded : string;
  Employees : Py.float;
  Funding : string;
  General_Approach : cell;
  Specific_Approach : string;
  Fuel_Source : cell;
  Output_MWe : Py.float;
  Pilot_Timeline : string
}.

(** The calls the script makes.  Where Python turns a number into text by
    its shortest representation (the employees line, the output metric), the
    call keeps the number: that conversion is not modelled. *)
Inductive call : Type :=
| st_title (text : string)
| st_markdown (text : string)
| st_spinner (text : string)
| st_error (text : string)
| st_sidebar_header (text : string)
| st_sidebar_multiselect (label : string) (options : list cell)
| st_metric (label value : string)
| st_metric_number (label : string) (value : Py.float) (unit : string)
| st_info (text : string)
| st_warning (text : string)
| st_tabs (labels : list string)
| st_subheader (text : string)
| st_selectbox (label : string) (options : list string)
| st_write (text : string)
| st_write_number (label : string) (value : Py.float)
| st_plotly_chart (c : chart)
| st_text_input (label : string)
| st_number_input (label : string) (min_value max_value : Z)
| st_dataframe (rows : list display_row).

(** A run of (part of) the script: the calls made, in order, and how the
    run ended. *)
Definition script (A : Type) : Type := (list call * outcome A)%type.

Definition ret {A : Type} (a : A) : script A := ([], Returned a).

Definition bind {A B : Type} (m : script A) (k : A -> script B) : script B :=
  match m with
  | (calls, Returned a) =>
      let (calls', r) := k a in ((calls ++ calls')%list, r)
  | (calls, Raised e) => (calls, Raised e)
  | (calls, Unmodelled) => (calls, Unmodelled)
  end.

Definition emit (c : call) : script unit := ([c], Returned tt).

Definition lift {A : Type} (o : outcome A) : script A := ([], o).

Notation "x <- m ;; k" := (bind m (fun x => k))
  (at level 61, m at next level, right associativity).
Notation "m ;; k" := (bind m (fun _ => k))
  (at level 61, right associativity).

(** ** Loading *)

(** What [requests.get], [raise_for_status], [response.json()] and
    [pd.json_normalize(data['companies'])] deliver between them: a table, or
    one of the exceptions the function catches, with its message. *)
Inductive api_response : Type :=
| RequestException (msg : string)
| JSONDecodeError (msg : string)
| KeyError (msg : string)
| OtherException (msg : string)
| Companies (rows : DataFrame).

Definition load_data_from_api (r : api_response) : script (option DataFrame) :=
  match r with
  | Companies rows => ret (Some rows)
  | RequestException e =>
      emit (st_error ("Error making API request: " ++ e)) ;; ret None
  | JSONDecodeError e =>
      emit (st_error ("Error parsing JSON response: " ++ e)) ;; ret None
  | KeyError e =>
      emit (st_error ("Expected 'companies' key not found in API response: " ++ e)) ;;
      ret None
  | OtherException e =>
      emit (st_error ("Unexpected error loading data from API: " ++ e)) ;; ret None
  end.

(** [df is None or df.empty] *)
Definition none_or_empty (df : option DataFrame) : bool :=
  match df with
  | None => true
  | Some d => empty d
  end.

(** ** Sidebar filters *)

(** What the user left in the widgets during one run. *)
Record widgets : Type := {
  selected_fuel_sources : list cell;
  selected_approaches : list cell;
  selected_company : option string;
  search_term : string;
  min_funding : Z
}.

Definition available_fuel_sources (df : DataFrame) : list cell :=
  Pd.unique (col fuel_source df).

Definition available_approaches (df : DataFrame) : list cell :=
  Pd.unique (col general_approach df).

Definition filtered_df (df : DataFrame) (fuels approaches : list cell) : DataFrame :=
  Pd.select df
    (Pd.mask_and (map (Pd.isin fuels) (col fuel_source df))
                 (map (Pd.isin approaches) (col general_approach df))).

(** ** Metric cards *)

Definition total_funding (view : DataFrame) : Py.float :=
  Py.fdiv (Pd.sum (col funding_amount view)) Py.lit_1e9.

Definition total_funding_card (view : DataFrame) : script unit :=
  if negb (empty view) then
    emit (st_metric "Total Funding" ("$" ++ Py.format_f 1 (total_funding view) ++ "B"))
  else emit (st_metric "Total Funding" "$0B").

Definition avg_employees (view : DataFrame) : outcome Z :=
  Py.int (Pd.mean (col employees view)).

Definition avg_employees_card (view : DataFrame) : script unit :=
  if negb (empty view) then
    n <- lift (avg_employees view) ;;
    emit (st_metric "Avg Employees" (Py.str_int n))
  else emit (st_metric "Avg Employees" "0").

Definition avg_output (view : DataFrame) : outcome Z :=
  Py.int (Pd.mean (col commercial_output_mwe view)).

Definition avg_output_card (view : DataFrame) : script unit :=
  if negb (empty view) then
    n <- lift (avg_output view) ;;
    emit (st_metric "Avg Output" (Py.str_int n ++ " MWe"))
  else emit (st_metric "Avg Output" "0 MWe").

(** ** First tab: one company in detail *)

(** [filtered_df[filtered_df['name'] == selected].iloc[0]] *)
Definition company_data (view : DataFrame) (selected : string) : outcome company :=
  match Pd.select view (map (String.eqb selected) (col name view)) with
  | [] => Raised IndexError
  | c :: _ => Returned c
  end.

(** The "Founded" line: [company_data['year_founded'][:4]]. *)
Definition founded (c : company) : string := Py.slice4 (year_founded c).

Definition funding_millions (c : company) : Py.float :=
  Py.fdiv (funding_amount c) Py.lit_1e6.

(** The value of the company's "Total Funding" metric. *)
Definition funding_metric (c : company) : string :=
  "$" ++ Py.format_f 0 (funding_millions c) ++ "M".

(** The milestones branch: text is handed to [eval], a list is kept. *)
Definition milestones (c : company) : outcome Py.object :=
  match milestones_past_12_months c with
  | MilestonesStr s => Py.eval s
  | MilestonesList l => Returned (Py.StrList l)
  end.

(** The seven bytes the source has before each milestone, and a space. *)
Definition bullet : string :=
  string_of_list_ascii (map ascii_of_nat [195; 162; 226; 130; 172; 194; 162; 32]%nat).

Fixpoint for_each {A : Type} (l : list A) (body : A -> script unit) : script unit :=
  match l with
  | [] => ret tt
  | x :: l' => body x ;; for_each l' body
  end.

Definition company_overview (view : DataFrame) (w : widgets) : script unit :=
  emit (st_subheader "Company Profiles") ;;
  emit (st_selectbox "Select a company to view details:" (col name view)) ;;
  match selected_company w with
  | None => ret tt
  | Some selected =>
      if truthy selected then
        c <- lift (company_data view selected) ;;
        emit (st_write ("**Description:** " ++ description c)) ;;
        emit (st_write ("**Location:** " ++ location c)) ;;
        emit (st_write ("**Founded:** " ++ founded c)) ;;
        emit (st_write_number "**Employees:** " (employees c)) ;;
        emit (st_write ("**Fusion Approach:** " ++ str_cell (general_approach c) ++ " - "
                        ++ specific_approach c)) ;;
        emit (st_write ("**Fuel Source:** " ++ str_cell (fuel_source c))) ;;
        emit (st_write ("**Pilot Plant Timeline:** " ++ pilot_plant_timeline c)) ;;
        emit (st_metric "Total Funding" (funding_metric c)) ;;
        emit (st_metric_number "Commercial Output" (commercial_output_mwe c) " MWe") ;;
        emit (st_write "**Recent Milestones:**") ;;
        ms <- lift (milestones c) ;;
        for_each (Py.iterate ms) (fun milestone => emit (st_write (bullet ++ milestone)))
      else ret tt
  end.

(** ** Second tab: charts *)

Definition approach_counts (view : DataFrame) : list (cell * nat) :=
  Pd.value_counts (col general_approach view).

Definition fuel_counts (view : DataFrame) : list (cell * nat) :=
  Pd.value_counts (col fuel_source view).

(** [px.scatter(..., size='funding.amount')] checks the bubble sizes when it
    builds the figure: a size that is missing or negative is refused with
    [ValueError]. *)
Definition sizes_accepted (view : DataFrame) : bool :=
  forallb (fun c => SFleb (S754_zero false) (funding_amount c)) view.

(** What the charts are drawn from; the drawing itself is Plotly's. *)
Definition analytics (view : DataFrame) : script unit :=
  emit (st_subheader "Analytics & Insights") ;;
  emit (st_write "**Funding Distribution by Company**") ;;
  emit (st_plotly_chart (funding_chart (col name view) (col funding_amount view))) ;;
  emit (st_write "**Employee Count vs Commercial Output**") ;;
  (if sizes_accepted view then
     emit (st_plotly_chart
             (scatter_chart
                (map (fun c => (employees c, commercial_output_mwe c, funding_amount c, name c))
                     view)))
   else lift (Raised ValueError)) ;;
  emit (st_write "**Fusion Approaches**") ;;
  emit (st_plotly_chart (pie_chart (approach_counts view))) ;;
  emit (st_write "**Fuel Sources**") ;;
  emit (st_plotly_chart (fuel_chart (fuel_counts view))).

(** ** Third tab: search, threshold and the table *)

(** [min_funding * 1e6], the [int] converted to a float first. *)
Definition threshold (min_funding : Z) : outcome Py.float :=
  match Py.float_of_int min_funding with
  | S754_infinity _ => Raised OverflowError
  | x => Returned (Py.fmul x Py.lit_1e6)
  end.

Definition search_filter (view : DataFrame) (term : string) : outcome DataFrame :=
  if truthy term then
    obind (Pd.str_contains_nocase (col name view) term) (fun by_name =>
    obind (Pd.str_contains_nocase (col description view) term) (fun by_description =>
    Returned (Pd.select view (Pd.mask_or by_name by_description))))
  else Returned view.

Definition funding_filter (view : DataFrame) (min_funding : Z) : outcome DataFrame :=
  if 0 <? min_funding then
    obind (threshold min_funding) (fun t =>
    Returned (Pd.select view (map (fun x => Py.fge x t) (col funding_amount view))))
  else Returned view.

Definition final_df (view : DataFrame) (term : string) (min_funding : Z) : outcome DataFrame :=
  obind (search_filter view term) (fun found => funding_filter found min_funding).

(** The "Funding" and "Founded" columns of the table. *)
Definition funding_column (x : Py.float) : string :=
  "$" ++ Py.format_f 1 (Py.fdiv x Py.lit_1e6) ++ "M".

Definition founded_column (x : string) : string := Py.slice4 x.

Definition display_df (final : DataFrame) : list display_row :=
  map (fun c =>
         {| Company := name c;
            Location := location c;
            Founded := founded_column (year_founded c);
            Employees := employees c;
            Funding := funding_column (funding_amount c);
            General_Approach := general_approach c;
            Specific_Approach := specific_approach c;
            Fuel_Source := fuel_source c;
            Output_MWe := commercial_output_mwe c;
            Pilot_Timeline := pilot_plant_timeline c |})
      final.

Definition max_funding_millions (view : DataFrame) : outcome Z :=
  if negb (empty view) then
    Py.int (Py.fdiv (Pd.max (col funding_amount view)) Py.lit_1e6)
  else Returned 0.

Definition detailed_data (view : DataFrame) (w : widgets) : script unit :=
  emit (st_subheader "Complete Company Database") ;;
  emit (st_text_input "Search companies") ;;
  max_value <- lift (max_funding_millions view) ;;
  emit (st_number_input "Minimum funding (millions USD)" 0 max_value) ;;
  final <- lift (final_df view (search_term w) (min_funding w)) ;;
  emit (st_write ("**Showing " ++ Py.str_int (len final) ++ " companies**")) ;;
  if empty final then
    emit (st_warning "No companies match the current search and filter criteria.")
  else emit (st_dataframe (display_df final)).

(** ** The script *)

Definition dashboard (df : DataFrame) (w : widgets) : script unit :=
  emit (st_sidebar_header "Filters") ;;
  emit (st_sidebar_multiselect "Fuel Source:" (available_fuel_sources df)) ;;
  emit (st_sidebar_multiselect "General Approach:" (available_approaches df)) ;;
  let view := filtered_df df (selected_fuel_sources w) (selected_approaches w) in
  emit (st_metric "Total Companies" (Py.str_int (len view))) ;;
  total_funding_card view ;;
  avg_employees_card view ;;
  avg_output_card view ;;
  (if len view <? len df then
     emit (st_info ("Showing " ++ Py.str_int (len view) ++ " of " ++ Py.str_int (len df)
                    ++ " companies based on current filters."))
   else ret tt) ;;
  if empty view then
    emit (st_warning
            "No companies match the selected filters. Please adjust your filter selections.")
  else
    emit (st_tabs ["Company Overview"; "Analytics"; "Detailed Data"]) ;;
    company_overview view w ;;
    analytics view ;;
    detailed_data view w.

Definition main (response : api_response) (w : widgets) : script unit :=
  emit (st_title "Fusion Companies Dashboard") ;;
  emit (st_markdown "*Comprehensive overview of fusion energy companies worldwide*") ;;
  emit (st_spinner "Loading fusion companies data...") ;;
  df <- load_data_from_api response ;;
  if none_or_empty df then
    emit (st_error "Failed to load data from API. Please refresh the page to try again.")
  else
    match df with
    | Some d => dashboard d w
    | None => ret tt
    end.

(** ** The filter engine of the specification *)

(** A predicate set: the four filter settings. *)
Record predicate_set : Type := {
  fuelSources : list cell;
  approaches : list cell;
  searchTerm : string;
  minFunding : Z                            (* in millions of USD *)
}.

(** Sidebar filters first, then the search and the threshold of the third
    tab, as the script chains them. *)
Definition apply_filters (base : DataFrame) (P : predicate_set) : outcome DataFrame :=
  final_df (filtered_df base (fuelSources P) (approaches P)) (searchTerm P) (minFunding P).

(** ** Notions the properties are stated with *)

(** [l1] is [l2] with some elements left out, the others in their order. *)
Inductive Subseq {A : Type} : list A -> list A -> Prop :=
| Subseq_nil : Subseq [] []
| Subseq_skip (x : A) (l1 l2 : list A) : Subseq l1 l2 -> Subseq l1 (x :: l2)
| Subseq_keep (x : A) (l1 l2 : list A) : Subseq l1 l2 -> Subseq (x :: l1) (x :: l2).

(** The row predicate of the sidebar filters. *)
Definition in_sidebar_selection (fuels approaches : list cell) (c : company) : bool :=
  Pd.isin fuels (fuel_source c) && Pd.isin approaches (general_approach c).

(** [needle] occurs in [s], letter case ignored. *)
Fixpoint prefix_nocase (needle s : string) : bool :=
  match needle, s with
  | EmptyString, _ => true
  | String _ _, EmptyString => false
  | String a needle', String b s' =>
      Ascii.eqb (Py.lower a) (Py.lower b) && prefix_nocase needle' s'
  end.

Fixpoint contains_nocase (needle s : string) : bool :=
  prefix_nocase needle s ||
  match s with
  | EmptyString => false
  | String _ s' => contains_nocase needle s'
  end.

(** Every character is printable and none is special in a regular expression. *)
Fixpoint ordinary (s : string) : bool :=
  match s with
  | EmptyString => true
  | String c s' => Py.printable c && negb (Py.special c) && ordinary s'
  end.

(** The count a table of counters holds for [v], zero when it has none. *)
Fixpoint counter (t : list (cell * nat)) (v : cell) : nat :=
  match t with
  | [] => O
  | (k, n) :: t' => if cell_eqb v k then n else counter t' v
  end.

(** Position of the first occurrence of [v] in a column. *)
Fixpoint first_index (v : cell) (column : list cell) : nat :=
  match column with
  | [] => O
  | x :: column' => if cell_eqb v x then O else S (first_index v column')
  end.

(** The order of a distribution: the larger count first, and among equal
    counts the value seen first in the column. *)
Definition ranked_before (column : list cell) (a b : cell * nat) : Prop :=
  (snd b < snd a)%nat \/
  (snd a = snd b /\ (first_index (fst a) column < first_index (fst b) column)%nat).

(** Ascending by count; among equal counts, in a given order [Q]. *)
Definition ascending (Q : cell * nat -> cell * nat -> Prop)
  (a b : cell * nat) : Prop :=
  (snd a < snd b)%nat \/ (snd a = snd b /\ Q a b).

(** The number a finite binary64 value stands for. *)
Definition exact_value (x : Py.float) : Q :=
  match x with
  | S754_finite s m e =>
      let v := if 0 <=? e then inject_Z (Zpos m * 2 ^ e)
               else Qmake (Zpos m) (2 ^ Z.to_pos (- e))%positive in
      if s then Qopp v else v
  | _ => 0%Q
  end.

(** Neither NaN nor an infinity. *)
Definition isfinite (x : Py.float) : bool :=
  match x with
  | S754_zero _ | S754_finite _ _ _ => true
  | _ => false
  end.

(** Truncation toward zero. *)
Definition truncate (q : Q) : Z :=
  if Qle_bool 0 q then Qfloor q else Qceiling q.

(** A finite binary64 number, zero or positive, in its canonical form. *)
Definition nonneg_finite (x : Py.float) : bool :=
  match x with
  | S754_zero false => true
  | S754_finite false m e => bounded Py.prec Py.emax m e
  | _ => false
  end.

Definition is_digit (c : ascii) : bool :=
  ((48 <=? nat_of_ascii c)%nat && (nat_of_ascii c <=? 57)%nat)%bool.

Fixpoint all_digits (s : string) : bool :=
  match s with
  | EmptyString => true
  | String c s' => is_digit c && all_digits s'
  end.

(** Digits, at least one. *)
Definition whole (s : string) : bool :=
  match s with
  | EmptyString => false
  | String _ _ => all_digits s
  end.

(** Digits, at least one, then a point and exactly one digit. *)
Fixpoint one_decimal (s : string) : bool :=
  match s with
  | EmptyString => false
  | String c s' =>
      is_digit c &&
      match s' with
      | String "." (String d EmptyString) => is_digit d
      | _ => one_decimal s'
      end
  end.

(** [s] without its last character, and that character. *)
Fixpoint split_last (s : string) : option (string * ascii) :=
  match s with
  | EmptyString => None
  | String c EmptyString => Some (EmptyString, c)
  | String c s' =>
      match split_last s' with
      | Some (body, z) => Some (String c body, z)
      | None => None
      end
  end.

(** [s] is a dollar sign, a number of the given shape, and the unit letter. *)
Definition money (shape : string -> bool) (unit : ascii) (s : string) : bool :=
  match s with
  | String "$" s' =>
      match split_last s' with
      | Some (body, z) => Ascii.eqb z unit && shape body
      | None => false
      end
  | _ => false
  end.

(** The integer nearest to a rational number, the even one of two that are
    equally near. *)
Definition nearest_even (q : Q) : Z :=
  let f := Qfloor q in
  match Qcompare (q - inject_Z f) (1 # 2) with
  | Lt => f
  | Eq => if Z.even f then f else f + 1
  | Gt => f + 1
  end.

(** The number a text of decimal digits writes. *)
Definition number_of (s : string) : option Z :=
  option_map (fun u => Z.of_N (N.of_uint u)) (NilZero.uint_of_string s).

(** The text before the first point and, when there is a point, the text
    after it. *)
Fixpoint split_point (s : string) : string * option string :=
  match s with
  | EmptyString => (EmptyString, None)
  | String c s' =>
      if Ascii.eqb c "." then (EmptyString, Some s')
      else let (w, f) := split_point s' in (String c w, f)
  end.

(** The number a decimal numeral writes: digits, or digits, a point and
    digits. *)
Definition decimal_value (s : string) : option Q :=
  match split_point s with
  | (w, None) => option_map inject_Z (number_of w)
  | (w, Some f) =>
      match number_of w, number_of f with
      | Some a, Some b =>
          Some (inject_Z a + Qmake b (Pos.pow 10 (Pos.of_nat (String.length f))))%Q
      | _, _ => None
      end
  end.

(** [s] is a decimal numeral that writes [q]. *)
Definition writes (s : string) (q : Q) : Prop :=
  exists q', decimal_value s = Some q' /\ (q' == q)%Q.

(** The exact total of a column, a value that is missing counting for
    nothing. *)
Definition exact_total (column : list Py.float) : Q :=
  fold_right (fun x t => (exact_value x + t)%Q) 0%Q column.

(** Amounts that are present are finite and not negative, and they add up
    to no more than [2^53]: the total is then the same whether pandas holds
    the column as 64-bit integers or as binary64 numbers. *)
Definition exactly_summed (column : list Py.float) : Prop :=
  Forall (fun x => Py.isnan x = true \/ nonneg_finite x = true) column
  /\ (exact_total column <= inject_Z (2 ^ 53))%Q.

(** One unit of the last binary place of a float; for zero, the least
    positive binary64 number. *)
Definition last_place (x : Py.float) : Q :=
  match x with
  | S754_finite _ _ e => (2 ^ e)%Q
  | _ => (2 ^ (-1074))%Q
  end.

(** ** Catalogs used as examples *)

Module Sample.

Definition company_of (n fuel approach : string) (staff funding output : Py.float)
  (founded_on : string) (ms : milestones_cell) : company :=
  {| name := n;
     description := "Fusion energy developer";
     location := "Everett, WA";
     year_founded := founded_on;
     employees := staff;
     funding_amount := funding;
     general_approach := text approach;
     specific_approach := "Field-reversed configuration";
     fuel_source := text fuel;
     commercial_output_mwe := output;
     pilot_plant_timeline := "2028";
     milestones_past_12_months := ms |}.

Definition helion : company :=
  company_of "Helion" "D-He3" "Magneto-inertial"
    (Py.float_of_int 100) (Py.float_of_int 2500000000) (Py.float_of_int 50)
    "2013-01-01" (MilestonesList ["Polaris built"]).

(** A company whose number of employees is missing. *)
Definition zap : company :=
  company_of "Zap" "D-T" "Magnetic"
    Py.nan (Py.float_of_int 330000000) (Py.float_of_int 200)
    "2017-01-01" (MilestonesList []).

(** A company whose milestones arrive as an empty text. *)
Definition tokamak : company :=
  company_of "Tokamak Energy" "D-T" "Magnetic"
    (Py.float_of_int 250) (Py.float_of_int 335000000) (Py.float_of_int 500)
    "99" (MilestonesStr "").

(** A company whose milestones arrive as one quoted text. *)
Definition general : company :=
  company_of "General Fusion" "D-T" "Magneto-inertial"
    (Py.float_of_int 150) (Py.float_of_int 440000000) (Py.float_of_int 300)
    "2002-01-01" (MilestonesStr "'ab'").

(** A company whose record has no fuel source. *)
Definition undisclosed : company :=
  {| name := "Undisclosed";
     description := "Stealth reactor developer";
     location := "Oxford";
     year_founded := "2022-03-01";
     employees := Py.float_of_int 8;
     funding_amount := Py.float_of_int 20000000;
     general_approach := text "Magnetic";
     specific_approach := "Stellarator";
     fuel_source := missing;
     commercial_output_mwe := Py.float_of_int 100;
     pilot_plant_timeline := "2035";
     milestones_past_12_months := MilestonesList [] |}.

Definition everything (df : DataFrame) (selected term : string) : widgets :=
  {| selected_fuel_sources := available_fuel_sources df;
     selected_approaches := available_approaches df;
     selected_company := Some selected;
     search_term := term;
     min_funding := 0 |}.

(** Only the fuel source "D-T" left selected in the sidebar. *)
Definition only_DT (df : DataFrame) : widgets :=
  {| selected_fuel_sources := [text "D-T"];
     selected_approaches := available_approaches df;
     selected_company := None;
     search_term := "";
     min_funding := 0 |}.

Definition four : DataFrame := [helion; zap; tokamak; general].

(** "D-T" companies that mention "energy" and raised 332 million or more. *)
Definition DT_energy_332 : predicate_set :=
  {| fuelSources := [text "D-T"];
     approaches := [text "Magnetic"; text "Magneto-inertial"];
     searchTerm := "ENERGY";
     minFunding := 332 |}.

(** Ten companies with 99 employees between them. *)
Definition staffed (i n : Z) : company :=
  company_of ("Startup " ++ Py.str_int i) "D-T" "Magnetic"
    (Py.float_of_int n) (Py.float_of_int 1000000) (Py.float_of_int 10)
    "2020-01-01" (MilestonesList []).

Definition ten : DataFrame :=
  map (fun i => staffed i (if i =? 10 then 18 else 9)) [1; 2; 3; 4; 5; 6; 7; 8; 9; 10].

End Sample.

(** ** Notions for the further properties *)

(** Every value of [small] is a value of [large]. *)
Definition selection_within (small large : list cell) : Prop :=
  forall v, In v small -> In v large.

(** The row has a funding amount. *)
Definition funded (c : company) : bool := negb (Py.isnan (funding_amount c)).

(** Two texts that differ in letter case at most. *)
Fixpoint same_nocase (a b : string) : bool :=
  match a, b with
  | EmptyString, EmptyString => true
  | String x a', String y b' => Ascii.eqb (Py.lower x) (Py.lower y) && same_nocase a' b'
  | _, _ => false
  end.

(** A text of printable characters with no quote and no backslash: what a
    single-quoted Python literal holds as it is. *)
Fixpoint plain_text (s : string) : bool :=
  match s with
  | EmptyString => true
  | String c s' =>
      Py.printable c && negb (Ascii.eqb c Py.backslash)
      && negb (Ascii.eqb c Py.quote1) && plain_text s'
  end.

(** The text Python's [repr] gives a list of such strings:
    ['a', 'b'] with a comma and a space between the items. *)
Definition quoted (s : string) : string :=
  String Py.quote1 (s ++ String Py.quote1 EmptyString).

Fixpoint items_repr (l : list string) : string :=
  match l with
  | [] => "]"
  | [x] => quoted x ++ "]"
  | x :: l' => quoted x ++ ", " ++ items_repr l'
  end.

Definition list_repr (l : list string) : string := "[" ++ items_repr l.

(** More companies for the examples. *)
Module More.

(** A company whose funding amount is missing. *)
Definition unfunded : company :=
  Sample.company_of "Stealth" "p-B11" "Inertial"
    (Py.float_of_int 12) Py.nan (Py.float_of_int 5)
    "2021-06-01" (MilestonesStr (list_repr ["Seed round"; "First plasma"])).

Definition five : DataFrame := (Sample.four ++ [unfunded])%list.

(** Nothing of the catalog is selected in the fuel-source widget. *)
Definition nothing_selected (df : DataFrame) : widgets :=
  {| selected_fuel_sources := [];
     selected_approaches := available_approaches df;
     selected_company := None;
     search_term := "";
     min_funding := 0 |}.

End More.

(** The floating-point library states its definitions with the core
    integer operations; [lia] wants the usual names. *)
Ltac usual_Z :=
  change IntDef.Z.add with Z.add in *;
  change IntDef.Z.sub with Z.sub in *;
  change IntDef.Z.mul with Z.mul in *;
  change IntDef.Z.opp with Z.opp in *;
  change IntDef.Z.max with Z.max in *;
  change IntDef.Z.min with Z.min in *.

(** * Properties *)

(** ** Equality of cells *)

Lemma cell_eqb_spec (a b : cell) : reflect (a = b) (cell_eqb a b).
Proof.
  destruct a as [s|], b as [s'|]; simpl; try (constructor; congruence).
  destruct (String.eqb_spec s s'); constructor; congruence.
Qed.

Lemma cell_eqb_refl (a : cell) : cell_eqb a a = true.
Proof.
  destruct (cell_eqb_spec a a); congruence.
Qed.


(** ** Boolean indexing is filtering *)

Lemma select_map {A : Type} (p : A -> bool) (rows : list A) :
  Pd.select rows (map p rows) = filter p rows.
Proof.
  induction rows as [|r rows IH]; simpl; [reflexivity|].
  destruct (p r); now rewrite IH.
Qed.

Lemma mask_and_map {A : Type} (p q : A -> bool) (rows : list A) :
  Pd.mask_and (map p rows) (map q rows) = map (fun r => p r && q r) rows.
Proof.
  induction rows as [|r rows IH]; simpl; [reflexivity|now rewrite IH].
Qed.

Lemma mask_or_map {A : Type} (p q : A -> bool) (rows : list A) :
  Pd.mask_or (map p rows) (map q rows) = map (fun r => p r || q r) rows.
Proof.
  induction rows as [|r rows IH]; simpl; [reflexivity|now rewrite IH].
Qed.

Lemma filtered_df_filter (df : DataFrame) (fuels approaches : list cell) :
  filtered_df df fuels approaches = filter (in_sidebar_selection fuels approaches) df.
Proof.
  unfold filtered_df, col. rewrite !map_map, mask_and_map.
  apply select_map.
Qed.

Lemma filter_all {A : Type} (p : A -> bool) (l : list A) :
  (forall x, In x l -> p x = true) -> filter p l = l.
Proof.
  induction l as [|x l IH]; simpl; intros H; [reflexivity|].
  rewrite (H x (or_introl eq_refl)). f_equal. apply IH. intros y Hy. apply H. now right.
Qed.

Lemma filter_none {A : Type} (p : A -> bool) (l : list A) :
  (forall x, In x l -> p x = false) -> filter p l = [].
Proof.
  induction l as [|x l IH]; simpl; intros H; [reflexivity|].
  rewrite (H x (or_introl eq_refl)). apply IH. intros y Hy. apply H. now right.
Qed.

(** ** [unique] lists every value of the column *)

Lemma isin_In (values : list cell) (v : cell) :
  Pd.isin values v = true <-> In v values.
Proof.
  unfold Pd.isin. rewrite existsb_exists. split.
  - intros [x [Hx He]]. destruct (cell_eqb_spec v x); [now subst|discriminate].
  - intros H. exists v. split; [assumption|apply cell_eqb_refl].
Qed.

Lemma unique_step_In (seen column : list cell) (v : cell) :
  In v (fold_left (fun s x => if Pd.isin s x then s else s ++ [x])%list column seen)
  <-> In v seen \/ In v column.
Proof.
  revert seen. induction column as [|x column IH]; intros seen; simpl.
  - tauto.
  - rewrite IH. destruct (Pd.isin seen x) eqn:E.
    + apply isin_In in E. split; [tauto|].
      intros [H|[H|H]]; subst; auto.
    + rewrite in_app_iff. simpl. intuition.
Qed.

Lemma unique_In (column : list cell) (v : cell) :
  In v (Pd.unique column) <-> In v column.
Proof.
  unfold Pd.unique. rewrite unique_step_In. simpl. tauto.
Qed.

(** ** C2: the empty selection *)

(** C2, as stated, fails: with nothing selected in the fuel-source widget the
    one company of this catalog does not survive the sidebar filters. *)
Lemma empty_selection_keeps_nothing_example :
  filtered_df [Sample.helion] [] (available_approaches [Sample.helion]) = []
  /\ filtered_df [Sample.helion] [] (available_approaches [Sample.helion])
     <> [Sample.helion].
Proof.
  split; [reflexivity|discriminate].
Qed.

(** C2, amended: for every base catalog, an empty fuel-source selection
    excludes every record, whatever the approach selection; the fuel-source
    predicate lets every record through when the selection is the full list
    of fuel sources of the catalog (the widget's default), and with both
    widgets at their defaults the view is the whole catalog. *)
Theorem fuel_selection_empty_or_full (df : DataFrame) (approaches : list cell) :
  filtered_df df [] approaches = []
  /\ filtered_df df (available_fuel_sources df) approaches
     = Pd.select df (map (Pd.isin approaches) (col general_approach df))
  /\ filtered_df df (available_fuel_sources df) (available_approaches df) = df.
Proof.
  rewrite !filtered_df_filter. unfold col. rewrite map_map, select_map.
  assert (Hfuel : forall c, In c df ->
            Pd.isin (available_fuel_sources df) (fuel_source c) = true).
  { intros c Hc. apply isin_In, unique_In. unfold col. now apply in_map. }
  assert (Happ : forall c, In c df ->
            Pd.isin (available_approaches df) (general_approach c) = true).
  { intros c Hc. apply isin_In, unique_In. unfold col. now apply in_map. }
  split; [|split].
  - apply filter_none. intros c _. reflexivity.
  - apply filter_ext_in. intros c Hc. unfold in_sidebar_selection.
    now rewrite Hfuel.
  - apply filter_all. intros c Hc. unfold in_sidebar_selection.
    now rewrite Hfuel, Happ.
Qed.

(** ** C4: the year *)

(** C4, as stated, fails: a year shorter than four characters is shown as it
    is, in the table and in the company's "Founded" line; no placeholder
    stands in for it. *)
Lemma short_year_is_shown_unchanged :
  founded_column "99" = "99"
  /\ founded Sample.tokamak = "99"
  /\ ~ (exists placeholder,
          forall x, (String.length x < 4)%nat -> founded_column x = placeholder).
Proof.
  split; [reflexivity|split; [reflexivity|]].
  intros [p H].
  assert (H1 := H "99" ltac:(simpl; lia)).
  assert (H2 := H "" ltac:(simpl; lia)).
  rewrite <- H2 in H1. discriminate.
Qed.

Lemma substring_short (n : nat) (s : string) :
  (String.length s <= n)%nat -> substring 0 n s = s.
Proof.
  revert s. induction n as [|n IH]; intros [|c s]; simpl; intros H;
    try reflexivity; try lia.
  f_equal. apply IH. lia.
Qed.

Lemma substring_long (n : nat) (s : string) :
  (n <= String.length s)%nat ->
  String.length (substring 0 n s) = n /\ prefix (substring 0 n s) s = true.
Proof.
  revert s. induction n as [|n IH]; intros [|c s]; simpl; intros H;
    try (split; reflexivity); try lia.
  destruct (IH s ltac:(lia)) as [Hl Hp]. split; [now rewrite Hl|].
  destruct (ascii_dec c c); [assumption|congruence].
Qed.

(** C4, amended: the year shown is the first four characters of
    [year_founded], so "2012-01-01" is shown as "2012"; a text of fewer than
    four characters is shown unchanged; no text makes the formatting fail.
    The "Founded" line of a company is formatted the same way. *)
Theorem year_is_first_four_characters (x : string) (c : company) :
  founded_column "2012-01-01" = "2012"
  /\ ((String.length x < 4)%nat -> founded_column x = x)
  /\ ((4 <= String.length x)%nat ->
      String.length (founded_column x) = 4%nat /\ prefix (founded_column x) x = true)
  /\ founded c = founded_column (year_founded c).
Proof.
  split; [reflexivity|]. split; [|split; [|reflexivity]].
  - intros H. apply substring_short. lia.
  - intros H. now apply substring_long.
Qed.

Lemma year_is_first_four_characters_witness :
  founded_column "99" = "99"
  /\ String.length (founded_column "2012-01-01") = 4%nat.
Proof.
  destruct (year_is_first_four_characters "99" Sample.helion) as [_ [H _]].
  destruct (year_is_first_four_characters "2012-01-01" Sample.helion) as [_ [_ [H' _]]].
  split.
  - apply H. simpl. lia.
  - apply H'. simpl. lia.
Defined.

(** ** C9: nothing to show *)

Lemma load_data_from_api_returns (response : api_response) :
  exists calls df, load_data_from_api response = (calls, Returned df).
Proof.
  destruct response; cbn; do 2 eexists; reflexivity.
Qed.

(** C9: when the load gives no table or an empty one, the script reports
    "Failed to load data" and returns: after the title, the subtitle, the
    spinner and what the load itself reported, that message is its last
    call, no filter is applied, no metric computed, and no exception leaves
    [main]. *)
Theorem no_data_halts (response : api_response) (w : widgets)
  (calls : list call) (df : option DataFrame) :
  load_data_from_api response = (calls, Returned df) ->
  none_or_empty df = true ->
  main response w =
    ([st_title "Fusion Companies Dashboard";
      st_markdown "*Comprehensive overview of fusion energy companies worldwide*";
      st_spinner "Loading fusion companies data..."]
     ++ calls
     ++ [st_error "Failed to load data from API. Please refresh the page to try again."],
     Returned tt)%list.
Proof.
  intros Hload Hempty. unfold main. cbn [bind emit].
  rewrite Hload. cbn [bind]. rewrite Hempty. cbn [emit]. reflexivity.
Qed.

Lemma no_data_halts_witness :
  main (RequestException "timed out") (Sample.everything [] "" "") =
    ([st_title "Fusion Companies Dashboard";
      st_markdown "*Comprehensive overview of fusion energy companies worldwide*";
      st_spinner "Loading fusion companies data..."]
     ++ [st_error "Error making API request: timed out"]
     ++ [st_error "Failed to load data from API. Please refresh the page to try again."],
     Returned tt)%list
  /\ snd (main (Companies []) (Sample.everything [] "" "")) = Returned tt.
Proof.
  split.
  - apply (no_data_halts (RequestException "timed out") _ _ None); reflexivity.
  - rewrite (no_data_halts (Companies []) _ [] (Some [])); reflexivity.
Defined.

(** ** C1: the milestones text *)

(** C1 does not hold of the script: a milestones text is handed to [eval].
    An empty text makes [eval], and with it the whole run, end in a
    [SyntaxError] after the "Recent Milestones" heading, with no warning
    call; a text that is one quoted word is accepted, although it is not a
    list, and the word's letters are shown as the milestones. *)
Theorem milestones_text_is_evaluated :
  milestones Sample.tokamak = Raised SyntaxError
  /\ (exists calls,
        main (Companies [Sample.tokamak])
             (Sample.everything [Sample.tokamak] "Tokamak Energy" "")
        = (calls ++ [st_write "**Recent Milestones:**"], Raised SyntaxError)%list
        /\ forall text, ~ In (st_warning text) calls)
  /\ obind (milestones Sample.general) (fun o => Returned (Py.iterate o))
     = Returned ["a"; "b"].
Proof.
  split; [reflexivity|split; [|reflexivity]].
  exists (removelast
            (fst (main (Companies [Sample.tokamak])
                       (Sample.everything [Sample.tokamak] "Tokamak Energy" "")))).
  split.
  - vm_compute. reflexivity.
  - intros text H. vm_compute in H.
    repeat (destruct H as [H|H]; [discriminate H|]). exact H.
Qed.

(** ** C3: means over the present values *)

(** An empty view shows zeros. *)
Lemma empty_view_shows_zero :
  avg_employees_card [] = ([st_metric "Avg Employees" "0"], Returned tt)
  /\ avg_output_card [] = ([st_metric "Avg Output" "0 MWe"], Returned tt).
Proof.
  split; reflexivity.
Qed.

(** C3 does not hold of the script: the cards are guarded against an empty
    view only.  With "D-T" alone selected, the view of this catalog is the one
    company whose number of employees is missing; the mean of that column is
    NaN, [int] refuses it, and the run ends in a [ValueError] before the
    "Avg Employees" card is drawn. *)
Theorem mean_of_missing_values_faults :
  filtered_df [Sample.helion; Sample.zap] [text "D-T"]
              (available_approaches [Sample.helion; Sample.zap]) = [Sample.zap]
  /\ Pd.mean (col employees [Sample.zap]) = Py.nan
  /\ avg_employees_card [Sample.zap] = ([], Raised ValueError)
  /\ snd (main (Companies [Sample.helion; Sample.zap])
               (Sample.only_DT [Sample.helion; Sample.zap])) = Raised ValueError.
Proof.
  repeat split; vm_compute; reflexivity.
Qed.

(** ** C10: the displayed means *)

Lemma Zpos_pow2_to_pos (k : Z) :
  0 < k -> Zpos (2 ^ Z.to_pos k) = 2 ^ k.
Proof.
  intros H. rewrite Pos2Z.inj_pow, Z2Pos.id by assumption. reflexivity.
Qed.

Lemma truncate_positive (a : Z) (b : positive) :
  0 < a ->
  truncate (a # b) = a / Zpos b /\ truncate (Qopp (a # b)) = - (a / Zpos b).
Proof.
  intros Ha. unfold truncate, Qle_bool, Qceiling, Qfloor, Qopp.
  cbn [Qnum Qden].
  destruct (Z.leb_spec (0 * Z.pos b) (a * 1)); [|lia].
  destruct (Z.leb_spec (0 * Z.pos b) (- a * 1)); [lia|].
  now rewrite Z.opp_involutive.
Qed.

(** [int] of a finite float is its exact value truncated toward zero. *)
Lemma int_truncates (x : Py.float) :
  isfinite x = true -> Py.int x = Returned (truncate (exact_value x)).
Proof.
  destruct x as [s|s| |s m e]; try discriminate; intros _.
  - reflexivity.
  - unfold Py.int, exact_value. f_equal.
    destruct (Z.leb_spec 0 e) as [He|He].
    + rewrite Z.shiftl_mul_pow2 by assumption.
      assert (Hpos : 0 < Zpos m * 2 ^ e)
        by (apply Z.mul_pos_pos; [lia|apply Z.pow_pos_nonneg; lia]).
      destruct (truncate_positive _ 1%positive Hpos) as [H1 H2].
      rewrite Z.div_1_r in H1, H2. unfold inject_Z.
      destruct s; [now rewrite H2|now rewrite H1].
    + assert (Hshift : Z.shiftl (Zpos m) e = Zpos m / 2 ^ (- e)).
      { rewrite <- (Z.opp_involutive e) at 1. rewrite Z.shiftl_opp_r.
        apply Z.shiftr_div_pow2. lia. }
      rewrite Hshift.
      destruct (truncate_positive (Zpos m) (2 ^ Z.to_pos (- e))%positive) as [H1 H2];
        [lia|].
      rewrite Zpos_pow2_to_pos in H1, H2 by lia.
      destruct s; [now rewrite H2|now rewrite H1].
Qed.

(** Truncation drops a fraction and never rounds up: the truncated value of
    a number that is not negative is the largest integer not above it. *)
Lemma truncate_is_floor_of_nonneg (q : Q) :
  (0 <= q)%Q -> (inject_Z (truncate q) <= q)%Q /\ (q < inject_Z (truncate q + 1))%Q.
Proof.
  intros H. unfold truncate. apply Qle_bool_iff in H. rewrite H.
  split; [apply Qfloor_le|apply Qlt_floor].
Qed.

(** C10: on a view that is not empty, each of the two cards shows the mean
    of its column (a binary64 number, when it is finite) truncated toward
    zero by [int], in decimal digits: the fraction is dropped, the value is
    neither kept exact nor rounded. *)
Theorem displayed_means_are_truncated (view : DataFrame) :
  empty view = false ->
  (isfinite (Pd.mean (col employees view)) = true ->
   avg_employees_card view =
     ([st_metric "Avg Employees"
         (Py.str_int (truncate (exact_value (Pd.mean (col employees view)))))],
      Returned tt))
  /\ (isfinite (Pd.mean (col commercial_output_mwe view)) = true ->
      avg_output_card view =
        ([st_metric "Avg Output"
            (Py.str_int (truncate (exact_value (Pd.mean (col commercial_output_mwe view))))
             ++ " MWe")],
         Returned tt)).
Proof.
  intros Hview. unfold avg_employees_card, avg_output_card, avg_employees, avg_output.
  rewrite Hview. cbn [negb].
  split; intros Hfin; rewrite (int_truncates _ Hfin); reflexivity.
Qed.

(** Ten companies with 99 employees between them: the mean is the binary64
    number nearest to 9.9, and the card shows 9. *)
Lemma displayed_means_are_truncated_witness :
  avg_employees_card Sample.ten = ([st_metric "Avg Employees" "9"], Returned tt)
  /\ Pd.mean (col employees Sample.ten)
     = Py.fdiv (Py.float_of_int 99) (Py.float_of_int 10)
  /\ ((99 # 10) - (1 # 1000000) < exact_value (Pd.mean (col employees Sample.ten)))%Q
  /\ (exact_value (Pd.mean (col employees Sample.ten)) < (99 # 10) + (1 # 1000000))%Q.
Proof.
  split; [|split; [|split]].
  - destruct (displayed_means_are_truncated Sample.ten) as [H _]; [reflexivity|].
    rewrite H; [|reflexivity].
    vm_compute. reflexivity.
  - vm_compute. reflexivity.
  - vm_compute. reflexivity.
  - vm_compute. reflexivity.
Defined.

(** ** C7: the search term *)

Lemma special_dot (c : ascii) :
  Py.special c = false -> Ascii.eqb c "." = false.
Proof.
  intros H. destruct (Ascii.eqb_spec c "."); [subst; discriminate H|reflexivity].
Qed.

Lemma special_repetition (c : ascii) :
  Py.special c = false -> Py.repetition c = false.
Proof.
  intros H. unfold Py.repetition.
  destruct (Ascii.eqb_spec c "*"); [subst; discriminate H|].
  destruct (Ascii.eqb_spec c "+"); [subst; discriminate H|].
  destruct (Ascii.eqb_spec c "?"); [subst; discriminate H|reflexivity].
Qed.

Lemma atoms_ordinary (term : string) :
  ordinary term = true ->
  Py.atoms term = Some (map Py.Lit (list_ascii_of_string term)).
Proof.
  induction term as [|c term IH]; simpl; intros H; [reflexivity|].
  apply andb_prop in H. destruct H as [H Hterm].
  apply andb_prop in H. destruct H as [Hp Hs].
  rewrite (IH Hterm), Hp, Hs.
  apply negb_true_iff in Hs. now rewrite (special_dot _ Hs).
Qed.

Lemma re_compile_ordinary (term : string) :
  ordinary term = true ->
  Py.re_compile term = Returned (map Py.Lit (list_ascii_of_string term)).
Proof.
  intros H. destruct term as [|c term]; [reflexivity|].
  unfold Py.re_compile. rewrite (atoms_ordinary _ H).
  simpl in H. apply andb_prop in H. destruct H as [H _].
  apply andb_prop in H. destruct H as [_ Hs]. apply negb_true_iff in Hs.
  now rewrite (special_repetition _ Hs).
Qed.

Lemma match_here_literal (term s : string) :
  Py.match_here (map Py.Lit (list_ascii_of_string term)) s = prefix_nocase term s.
Proof.
  revert s. induction term as [|c term IH]; intros [|d s]; simpl; try reflexivity.
  now rewrite IH.
Qed.

Lemma search_literal (term s : string) :
  Py.search (map Py.Lit (list_ascii_of_string term)) s = contains_nocase term s.
Proof.
  induction s as [|d s IH]; simpl.
  - now rewrite match_here_literal.
  - now rewrite match_here_literal, IH.
Qed.

(** For a term made of ordinary characters the search keeps exactly the rows
    whose name or description contains it, letter case ignored; an empty term
    keeps every row. *)
Lemma search_with_ordinary_term (view : DataFrame) (term : string) :
  ordinary term = true ->
  search_filter view term =
    Returned (if truthy term
              then filter (fun c => contains_nocase term (name c)
                                    || contains_nocase term (description c)) view
              else view).
Proof.
  intros H. unfold search_filter, Pd.str_contains_nocase.
  destruct (truthy term); [|reflexivity].
  rewrite (re_compile_ordinary _ H). cbn [obind]. f_equal.
  unfold col. rewrite !map_map, mask_or_map, select_map.
  apply filter_ext. intros c. now rewrite !search_literal.
Qed.

(** C7 does not hold of the script: the term is compiled as a regular
    expression.  The term "+" is rejected by [re], so the search, and the run
    with it, ends in an error; the term "h.l" keeps a company whose name and
    description do not contain the three characters "h.l". *)
Theorem search_term_is_a_regular_expression :
  search_filter [Sample.helion] "+" = Raised re_error
  /\ snd (main (Companies [Sample.helion])
               (Sample.everything [Sample.helion] "Helion" "+")) = Raised re_error
  /\ search_filter [Sample.helion] "h.l" = Returned [Sample.helion]
  /\ contains_nocase "h.l" (name Sample.helion) = false
  /\ contains_nocase "h.l" (description Sample.helion) = false.
Proof.
  repeat split; vm_compute; reflexivity.
Qed.

(** ** C6: the filters as a whole *)

Lemma filter_filter_and {A : Type} (p q : A -> bool) (l : list A) :
  filter p (filter q l) = filter (fun x => q x && p x) l.
Proof.
  induction l as [|x l IH]; simpl; [reflexivity|].
  destruct (q x); simpl; [destruct (p x)|]; now rewrite IH.
Qed.

Lemma filter_idempotent {A : Type} (p : A -> bool) (l : list A) :
  filter p (filter p l) = filter p l.
Proof.
  apply filter_all. intros x Hx. now apply filter_In in Hx.
Qed.

Lemma filter_Subseq {A : Type} (p : A -> bool) (l : list A) :
  Subseq (filter p l) l.
Proof.
  induction l as [|x l IH]; simpl; [constructor|].
  destruct (p x); now constructor.
Qed.

Lemma Subseq_In {A : Type} (l1 l2 : list A) (x : A) :
  Subseq l1 l2 -> In x l1 -> In x l2.
Proof.
  induction 1 as [|y l1 l2 _ IH|y l1 l2 _ IH]; simpl; intuition.
Qed.

Lemma Subseq_map {A B : Type} (f : A -> B) (l1 l2 : list A) :
  Subseq l1 l2 -> Subseq (map f l1) (map f l2).
Proof.
  induction 1; simpl; now constructor.
Qed.

(** Each stage keeps the rows that pass a test fixed by the setting alone,
    or fails whatever the view. *)
Lemma search_filter_is_filter (term : string) :
  (exists q, forall view, search_filter view term = Returned (filter q view))
  \/ (forall view v, search_filter view term <> Returned v).
Proof.
  unfold search_filter, Pd.str_contains_nocase.
  destruct (truthy term).
  - destruct (Py.re_compile term) as [p|e|]; cbn [obind].
    + left. exists (fun c => Py.search p (name c) || Py.search p (description c)).
      intros view. unfold col. now rewrite !map_map, mask_or_map, select_map.
    + right. discriminate.
    + right. discriminate.
  - left. exists (fun _ => true). intros view. f_equal. symmetry.
    now apply filter_all.
Qed.

Lemma funding_filter_is_filter (min_funding : Z) :
  (exists q, forall view, funding_filter view min_funding = Returned (filter q view))
  \/ (forall view v, funding_filter view min_funding <> Returned v).
Proof.
  unfold funding_filter.
  destruct (0 <? min_funding).
  - destruct (threshold min_funding) as [t|e|]; cbn [obind].
    + left. exists (fun c => Py.fge (funding_amount c) t).
      intros view. unfold col. now rewrite map_map, select_map.
    + right. discriminate.
    + right. discriminate.
  - left. exists (fun _ => true). intros view. f_equal. symmetry.
    now apply filter_all.
Qed.

Lemma apply_filters_is_filter (P : predicate_set) :
  (exists q, forall base, apply_filters base P = Returned (filter q base))
  \/ (forall base v, apply_filters base P <> Returned v).
Proof.
  unfold apply_filters, final_df.
  destruct (search_filter_is_filter (searchTerm P)) as [[q2 H2]|H2].
  - destruct (funding_filter_is_filter (minFunding P)) as [[q3 H3]|H3].
    + left.
      exists (fun c => in_sidebar_selection (fuelSources P) (approaches P) c && (q2 c && q3 c)).
      intros base. rewrite H2. cbn [obind]. rewrite H3.
      now rewrite filtered_df_filter, !filter_filter_and.
    + right. intros base v. rewrite H2. cbn [obind]. apply H3.
  - right. intros base v.
    specialize (H2 (filtered_df base (fuelSources P) (approaches P))).
    destruct (search_filter _ _) as [found|e|]; cbn [obind]; try discriminate.
    exfalso. now apply (H2 found).
Qed.

(** C6: whenever the filters give a view, its records are records of the
    base view, in the order they have there (so its names are names of the
    base view), and filtering that view again with the same settings gives
    it back unchanged. *)
Theorem apply_filters_subset_ordered_idempotent
  (base : DataFrame) (P : predicate_set) (v : DataFrame) :
  apply_filters base P = Returned v ->
  Subseq v base
  /\ (forall c, In c v -> In c base)
  /\ Subseq (col name v) (col name base)
  /\ apply_filters v P = Returned v.
Proof.
  intros H.
  destruct (apply_filters_is_filter P) as [[q Hq]|Hfail];
    [|exfalso; exact (Hfail base v H)].
  rewrite Hq in H. injection H as <-.
  assert (Hsub : Subseq (filter q base) base) by apply filter_Subseq.
  repeat split.
  - exact Hsub.
  - intros c. now apply Subseq_In.
  - now apply Subseq_map.
  - rewrite Hq. f_equal. apply filter_idempotent.
Qed.

Lemma apply_filters_subset_ordered_idempotent_witness :
  apply_filters Sample.four Sample.DT_energy_332 = Returned [Sample.tokamak; Sample.general]
  /\ Subseq [Sample.tokamak; Sample.general] Sample.four
  /\ apply_filters [Sample.tokamak; Sample.general] Sample.DT_energy_332
     = Returned [Sample.tokamak; Sample.general].
Proof.
  assert (H : apply_filters Sample.four Sample.DT_energy_332
              = Returned [Sample.tokamak; Sample.general]) by (vm_compute; reflexivity).
  destruct (apply_filters_subset_ordered_idempotent _ _ _ H) as [H1 [_ [_ H2]]].
  exact (conj H (conj H1 H2)).
Defined.

(** ** C5: value counts *)

Section Tally.

Local Open Scope nat_scope.

Lemma tally_snoc (column : list cell) (k : cell) :
  Pd.tally (column ++ [k]) = Pd.bump k (Pd.tally column).
Proof.
  unfold Pd.tally. now rewrite fold_left_app.
Qed.

Lemma counter_bump (t : list (cell * nat)) (k v : cell) :
  counter (Pd.bump k t) v = counter t v + (if cell_eqb v k then 1 else 0).
Proof.
  induction t as [|[k' n] t IH]; simpl.
  - destruct (cell_eqb v k); reflexivity.
  - destruct (cell_eqb_spec k k') as [->|Hk]; simpl.
    + destruct (cell_eqb_spec v k'); lia.
    + destruct (cell_eqb_spec v k') as [->|Hv].
      * destruct (cell_eqb_spec k' k); [congruence|lia].
      * apply IH.
Qed.

Lemma keys_bump (t : list (cell * nat)) (k : cell) :
  map fst (Pd.bump k t) =
    if in_dec cell_dec k (map fst t) then map fst t else (map fst t ++ [k])%list.
Proof.
  induction t as [|[k' n] t IH]; simpl; [reflexivity|].
  destruct (cell_eqb_spec k k') as [->|Hk]; simpl.
  - destruct (cell_dec k' k'); [reflexivity|congruence].
  - rewrite IH. destruct (cell_dec k' k); [congruence|].
    destruct (in_dec cell_dec k (map fst t)); reflexivity.
Qed.

Lemma total_bump (t : list (cell * nat)) (k : cell) :
  list_sum (map snd (Pd.bump k t)) = S (list_sum (map snd t)).
Proof.
  induction t as [|[k' n] t IH]; simpl; [reflexivity|].
  destruct (cell_eqb k k'); simpl; [reflexivity|]. rewrite IH. lia.
Qed.

Lemma positive_bump (t : list (cell * nat)) (k : cell) :
  Forall (fun e => 0 < snd e) t -> Forall (fun e => 0 < snd e) (Pd.bump k t).
Proof.
  induction 1 as [|[k' n] t Hn Ht IH]; simpl.
  - repeat constructor.
  - destruct (cell_eqb k k'); constructor; simpl in *; auto; lia.
Qed.

Lemma first_index_lt (v : cell) (column : list cell) :
  In v column -> first_index v column < List.length column.
Proof.
  induction column as [|x column IH]; simpl; [tauto|].
  intros H. destruct (cell_eqb_spec v x); [lia|].
  destruct H as [H|H]; [congruence|]. specialize (IH H). lia.
Qed.

Lemma first_index_app (v : cell) (column rest : list cell) :
  In v column -> first_index v (column ++ rest) = first_index v column.
Proof.
  induction column as [|x column IH]; simpl; [tauto|].
  intros H. destruct (cell_eqb_spec v x); [reflexivity|].
  destruct H as [H|H]; [congruence|]. now rewrite IH.
Qed.

Lemma first_index_new (k : cell) (column : list cell) :
  ~ In k column -> first_index k (column ++ [k]) = List.length column.
Proof.
  induction column as [|x column IH]; simpl; intros H.
  - now rewrite cell_eqb_refl.
  - destruct (cell_eqb_spec k x); [subst; tauto|]. rewrite IH; tauto.
Qed.

Lemma StronglySorted_snoc {A : Type} (R : A -> A -> Prop) (l : list A) (x : A) :
  StronglySorted R l -> Forall (fun a => R a x) l -> StronglySorted R (l ++ [x]).
Proof.
  induction 1 as [|a l Hl IH Ha]; simpl; intros Hx.
  - repeat constructor.
  - inversion Hx as [|? ? Hax Hlx]; subst. constructor; [now apply IH|].
    apply Forall_app. split; [assumption|now constructor].
Qed.

Lemma StronglySorted_weaken {A : Type} (R R' : A -> A -> Prop) (l : list A) :
  (forall a b, In a l -> In b l -> R a b -> R' a b) ->
  StronglySorted R l -> StronglySorted R' l.
Proof.
  intros HR H. induction H as [|a l Hl IH Ha]; constructor.
  - apply IH. intros x y Hx Hy. apply HR; now right.
  - rewrite Forall_forall in *. intros y Hy. apply HR; simpl; auto.
Qed.

Lemma StronglySorted_rev {A : Type} (R : A -> A -> Prop) (l : list A) :
  StronglySorted R l -> StronglySorted (fun a b => R b a) (rev l).
Proof.
  induction 1 as [|a l Hl IH Ha]; simpl; [constructor|].
  apply StronglySorted_snoc; [assumption|].
  rewrite Forall_forall in *. intros y Hy. apply Ha. now apply in_rev.
Qed.

Lemma StronglySorted_map {A B : Type} (f : A -> B) (R : B -> B -> Prop) (l : list A) :
  StronglySorted R (map f l) -> StronglySorted (fun a b => R (f a) (f b)) l.
Proof.
  induction l as [|a l IH]; simpl; intros H; [constructor|].
  inversion H as [|? ? Hl Ha]; subst. constructor; [now apply IH|].
  rewrite Forall_forall in *. intros y Hy. apply Ha. now apply in_map.
Qed.

(** What the table of counters holds once the column has been read. *)
Lemma tally_spec (column : list cell) :
  (forall v, In v (map fst (Pd.tally column)) <-> In v column)
  /\ NoDup (map fst (Pd.tally column))
  /\ (forall v, counter (Pd.tally column) v = count_occ cell_dec column v)
  /\ list_sum (map snd (Pd.tally column)) = List.length column
  /\ Forall (fun e => 0 < snd e) (Pd.tally column)
  /\ StronglySorted (fun a b => first_index a column < first_index b column)
       (map fst (Pd.tally column)).
Proof.
  induction column as [|k column IH] using rev_ind.
  - simpl. repeat split; try tauto; constructor.
  - destruct IH as [Hkeys [Hnodup [Hcount [Htotal [Hpos Hsorted]]]]].
    rewrite tally_snoc, keys_bump.
    assert (Hfirst : forall a b, In a (map fst (Pd.tally column)) ->
              In b (map fst (Pd.tally column)) ->
              first_index a column < first_index b column ->
              first_index a (column ++ [k]) < first_index b (column ++ [k])).
    { intros a b Ha Hb. apply Hkeys in Ha, Hb. now rewrite !first_index_app. }
    split; [|split; [|split; [|split; [|split]]]].
    + intros v.
      destruct (in_dec cell_dec k (map fst (Pd.tally column))) as [Hin|Hin];
        rewrite ?in_app_iff, ?in_app_iff, Hkeys; simpl; [|tauto].
      apply Hkeys in Hin. intuition. now subst.
    + destruct (in_dec cell_dec k (map fst (Pd.tally column))) as [Hin|Hin];
        [assumption|].
      apply NoDup_app; [assumption|repeat constructor; simpl; tauto|].
      intros x Hx [<-|[]]. contradiction.
    + intros v. rewrite counter_bump, Hcount, count_occ_app. simpl.
      destruct (cell_dec k v) as [->|Hv].
      * now rewrite cell_eqb_refl.
      * destruct (cell_eqb_spec v k); [congruence|reflexivity].
    + rewrite total_bump, Htotal, length_app. simpl. lia.
    + now apply positive_bump.
    + destruct (in_dec cell_dec k (map fst (Pd.tally column))) as [Hin|Hin].
      * exact (StronglySorted_weaken _ _ _ Hfirst Hsorted).
      * apply StronglySorted_snoc.
        -- exact (StronglySorted_weaken _ _ _ Hfirst Hsorted).
        -- rewrite Forall_forall. intros a Ha. apply Hkeys in Ha.
           rewrite first_index_app by assumption.
           rewrite first_index_new by (now rewrite <- Hkeys).
           now apply first_index_lt.
Qed.

End Tally.

Section Sorting.

Local Open Scope nat_scope.

Lemma insert_asc_perm (x : cell * nat) (l : list (cell * nat)) :
  Permutation (Pd.insert_asc x l) (x :: l).
Proof.
  induction l as [|y l IH]; simpl; [reflexivity|].
  destruct (snd x <=? snd y); [reflexivity|].
  rewrite IH. apply perm_swap.
Qed.

Lemma sort_asc_perm (l : list (cell * nat)) :
  Permutation (Pd.sort_asc l) l.
Proof.
  induction l as [|x l IH]; simpl; [reflexivity|].
  rewrite insert_asc_perm. now constructor.
Qed.

Lemma sort_desc_perm (t : list (cell * nat)) :
  Permutation (Pd.sort_desc t) t.
Proof.
  unfold Pd.sort_desc.
  rewrite <- Permutation_rev, sort_asc_perm. symmetry. apply Permutation_rev.
Qed.

Lemma insert_asc_sorted (Q : cell * nat -> cell * nat -> Prop)
  (x : cell * nat) (l : list (cell * nat)) :
  StronglySorted (ascending Q) l -> Forall (Q x) l ->
  StronglySorted (ascending Q) (Pd.insert_asc x l).
Proof.
  induction 1 as [|y l Hl IH Hy]; simpl; intros Hx.
  - repeat constructor.
  - inversion Hx as [|? ? Hxy Hxl]; subst.
    destruct (Nat.leb_spec (snd x) (snd y)) as [Hle|Hgt].
    + constructor; [now constructor|].
      constructor.
      * unfold ascending. destruct (Nat.eq_dec (snd x) (snd y)); [auto|left; lia].
      * rewrite Forall_forall in *. intros z Hz.
        specialize (Hy z Hz). specialize (Hxl z Hz). unfold ascending in *.
        destruct Hy as [Hy|[Hy _]];
          destruct (Nat.eq_dec (snd x) (snd z)); auto; left; lia.
    + constructor; [now apply IH|].
      rewrite Forall_forall in *. intros z Hz.
      apply (Permutation_in _ (insert_asc_perm x l)) in Hz.
      destruct Hz as [<-|Hz]; [left; lia|now apply Hy].
Qed.

Lemma sort_asc_sorted (Q : cell * nat -> cell * nat -> Prop)
  (l : list (cell * nat)) :
  StronglySorted Q l -> StronglySorted (ascending Q) (Pd.sort_asc l).
Proof.
  induction 1 as [|x l Hl IH Hx]; simpl; [constructor|].
  apply insert_asc_sorted; [assumption|].
  apply (Permutation_Forall (Permutation_sym (sort_asc_perm l))). assumption.
Qed.

Lemma list_sum_perm (l l' : list nat) :
  Permutation l l' -> list_sum l = list_sum l'.
Proof.
  induction 1; simpl; lia.
Qed.

End Sorting.

Lemma counter_In (t : list (cell * nat)) (v : cell) (n : nat) :
  NoDup (map fst t) -> Forall (fun e => (0 < snd e)%nat) t ->
  (In (v, n) t <-> counter t v = n /\ (0 < n)%nat).
Proof.
  induction t as [|[k m] t IH]; simpl; intros Hnd Hpos.
  - split; [tauto|lia].
  - inversion Hnd as [|? ? Hk Hnd']; subst.
    inversion Hpos as [|? ? Hm Hpos']; subst. simpl in Hm.
    specialize (IH Hnd' Hpos').
    destruct (cell_eqb_spec v k) as [->|Hv].
    + split.
      * intros [H|H]; [injection H as <-; auto|].
        exfalso. apply Hk. change k with (fst (k, n)). now apply in_map.
      * intros [<- _]. now left.
    + rewrite <- IH. split; [intros [H|H]; [congruence|assumption]|auto].
Qed.

Lemma StronglySorted_filter {A : Type} (R : A -> A -> Prop) (p : A -> bool) (l : list A) :
  StronglySorted R l -> StronglySorted R (filter p l).
Proof.
  induction 1 as [|a l Hl IH Ha]; simpl; [constructor|].
  destruct (p a); [|assumption]. constructor; [assumption|].
  rewrite Forall_forall in *. intros x Hx. apply Ha. now apply filter_In in Hx.
Qed.

Lemma StronglySorted_any {A : Type} (l : list A) :
  StronglySorted (fun _ _ => True) l.
Proof.
  induction l; constructor; [assumption|]. now apply Forall_forall.
Qed.

(** In a list in descending order of count whose entries of each count are
    in a given order, the entries are in the order of the two together. *)
Lemma sorted_with_ties (F : cell * nat -> cell * nat -> Prop) (l : list (cell * nat)) :
  StronglySorted (fun a b => (snd b <= snd a)%nat) l ->
  (forall n, StronglySorted F (filter (fun e => (snd e =? n)%nat) l)) ->
  StronglySorted (fun a b => (snd b < snd a)%nat \/ (snd a = snd b /\ F a b)) l.
Proof.
  induction l as [|a l IH]; intros Hd Ht; [constructor|].
  inversion Hd as [|? ? Hl Ha]; subst. constructor.
  - apply IH; [assumption|]. intros n. specialize (Ht n). simpl in Ht.
    destruct (snd a =? n)%nat; [now inversion Ht|assumption].
  - rewrite Forall_forall in *. intros b Hb. specialize (Ha b Hb).
    destruct (Nat.eq_dec (snd a) (snd b)) as [E|E]; [right|left; lia].
    split; [assumption|]. specialize (Ht (snd a)). simpl in Ht.
    rewrite Nat.eqb_refl in Ht. inversion Ht as [|? ? _ HF]; subst.
    rewrite Forall_forall in HF. apply HF. apply filter_In. split; [assumption|].
    apply Nat.eqb_eq. congruence.
Qed.

(** The model's sort does what is asked of a sort, and keeps entries of
    equal count in place. *)
Lemma sort_desc_descending (t : list (cell * nat)) :
  StronglySorted (fun a b => (snd b <= snd a)%nat) (Pd.sort_desc t).
Proof.
  unfold Pd.sort_desc.
  assert (H := sort_asc_sorted (fun _ _ => True) (rev t) (StronglySorted_any _)).
  apply StronglySorted_rev in H.
  refine (StronglySorted_weaken _ _ _ _ H).
  intros a b _ _. unfold ascending. intros [Hlt|[He _]]; lia.
Qed.

Lemma filter_insert_asc (x : cell * nat) (l : list (cell * nat)) (n : nat) :
  filter (fun e => (snd e =? n)%nat) (Pd.insert_asc x l)
  = filter (fun e => (snd e =? n)%nat) (x :: l).
Proof.
  induction l as [|y l IH]; [reflexivity|].
  cbn [Pd.insert_asc]. destruct (Nat.leb_spec (snd x) (snd y)) as [Hle|Hgt]; [reflexivity|].
  cbn [filter] in *. rewrite IH.
  destruct (Nat.eqb_spec (snd x) n), (Nat.eqb_spec (snd y) n); try reflexivity. lia.
Qed.

Lemma sort_desc_keeps_ties (t : list (cell * nat)) (n : nat) :
  filter (fun e => (snd e =? n)%nat) (Pd.sort_desc t)
  = filter (fun e => (snd e =? n)%nat) t.
Proof.
  assert (H : forall l, filter (fun e => (snd e =? n)%nat) (Pd.sort_asc l)
                        = filter (fun e => (snd e =? n)%nat) l).
  { induction l as [|x l IH]; [reflexivity|].
    cbn [Pd.sort_asc]. rewrite filter_insert_asc. cbn [filter]. now rewrite IH. }
  unfold Pd.sort_desc. rewrite filter_rev, H, filter_rev. apply rev_involutive.
Qed.

Lemma count_occ_present (column : list cell) (v : cell) :
  is_text v = true ->
  count_occ cell_dec (filter is_text column) v = count_occ cell_dec column v.
Proof.
  intros Hv. induction column as [|x column IH]; [reflexivity|].
  destruct x as [s|]; cbn [filter is_text].
  - destruct (cell_dec (text s) v) as [E|E].
    + now rewrite !count_occ_cons_eq, IH.
    + now rewrite !count_occ_cons_neq.
  - rewrite count_occ_cons_neq; [exact IH|]. intros E. subst. discriminate.
Qed.

Lemma first_index_present (column : list cell) (a b : cell) :
  is_text a = true -> is_text b = true ->
  (first_index a (filter is_text column) < first_index b (filter is_text column))%nat ->
  (first_index a column < first_index b column)%nat.
Proof.
  intros Ha Hb. induction column as [|x column IH]; simpl; [lia|].
  destruct x as [s|]; simpl.
  - destruct (cell_eqb a (text s)), (cell_eqb b (text s)); lia.
  - destruct a, b; try discriminate. simpl. lia.
Qed.

(** C5, as stated, fails: a record without a fuel source stays in the view
    under the default selection, and the distribution leaves it out, so the
    counts add up to one less than the number of records. *)
Lemma counts_leave_out_a_missing_value :
  filtered_df [Sample.helion; Sample.undisclosed]
    (available_fuel_sources [Sample.helion; Sample.undisclosed])
    (available_approaches [Sample.helion; Sample.undisclosed])
  = [Sample.helion; Sample.undisclosed]
  /\ fuel_counts [Sample.helion; Sample.undisclosed] = [(text "D-He3", 1%nat)]
  /\ Z.of_nat (list_sum (map snd (fuel_counts [Sample.helion; Sample.undisclosed])))
     <> len [Sample.helion; Sample.undisclosed].
Proof.
  split; [reflexivity|split; [reflexivity|discriminate]].
Qed.

(** C5, amended: for every view and every categorical field, the
    distribution has one entry for each distinct value the field takes in
    the view, missing values left out, holding the number of records with
    that value; its counts add up to the number of records in which the field
    is present, which is the number of records of the view when none lacks
    it; and its entries are in descending order of count.  This holds
    whatever sort pandas uses, as long as it rearranges the table into
    descending order of count; when, besides, the sort keeps entries of equal
    count in the order of the table, these are in the order in which their
    values first appear in the view.  [approach_counts] and [fuel_counts]
    are this distribution for [general_approach] and [fuel_source], with the
    sort of the model. *)
Theorem value_counts_is_a_distribution_of_present_values
  (sort : list (cell * nat) -> list (cell * nat))
  (view : DataFrame) (field : company -> cell) :
  (forall t, Permutation (sort t) t) ->
  (forall t, StronglySorted (fun a b => (snd b <= snd a)%nat) (sort t)) ->
  let column := col field view in
  let distribution := Pd.value_counts_with sort column in
  NoDup (map fst distribution)
  /\ (forall v n, In (v, n) distribution <->
                  is_text v = true /\ n = count_occ cell_dec column v /\ (0 < n)%nat)
  /\ list_sum (map snd distribution) = List.length (filter is_text column)
  /\ (forallb is_text column = true ->
      Z.of_nat (list_sum (map snd distribution)) = len view)
  /\ StronglySorted (fun a b => (snd b <= snd a)%nat) distribution
  /\ ((forall t n, filter (fun e => (snd e =? n)%nat) (sort t)
                   = filter (fun e => (snd e =? n)%nat) t) ->
      StronglySorted (ranked_before column) distribution)
  /\ approach_counts view = Pd.value_counts_with Pd.sort_desc (col general_approach view)
  /\ fuel_counts view = Pd.value_counts_with Pd.sort_desc (col fuel_source view).
Proof.
  intros Hperm Hdesc column distribution. subst distribution.
  unfold Pd.value_counts_with. set (shown := filter is_text column).
  destruct (tally_spec shown) as [Hkeys [Hnodup [Hcount [Htotal [Hpos Hsorted]]]]].
  specialize (Hperm (Pd.tally shown)).
  assert (Hshown : forall v, In v shown -> is_text v = true).
  { intros v Hv. now apply filter_In in Hv. }
  split; [|split; [|split; [|split; [|split; [|split; [|split; reflexivity]]]]]].
  - apply (Permutation_NoDup (l := map fst (Pd.tally shown))); [|assumption].
    symmetry. now apply Permutation_map.
  - intros v n. transitivity (In (v, n) (Pd.tally shown)).
    { split; apply Permutation_in; [assumption|now symmetry]. }
    rewrite counter_In by assumption. rewrite Hcount. split.
    + intros [Hn Hp]. assert (Hv : is_text v = true).
      { apply Hshown. destruct (count_occ_In cell_dec shown v) as [_ H]. apply H. lia. }
      unfold shown in Hn. rewrite count_occ_present in Hn by assumption. auto.
    + intros [Hv [Hn Hp]]. unfold shown. rewrite count_occ_present by assumption. auto.
  - now rewrite (list_sum_perm _ _ (Permutation_map snd Hperm)).
  - intros Hall. rewrite (list_sum_perm _ _ (Permutation_map snd Hperm)), Htotal.
    unfold shown. rewrite filter_all.
    + unfold column, col, len. now rewrite length_map.
    + intros x Hx. rewrite forallb_forall in Hall. now apply Hall.
  - apply Hdesc.
  - intros Hties.
    assert (Hfirst : StronglySorted
              (fun a b => (first_index (fst a) column < first_index (fst b) column)%nat)
              (Pd.tally shown)).
    { apply StronglySorted_map in Hsorted.
      refine (StronglySorted_weaken _ _ _ _ Hsorted).
      intros a b Ha Hb. apply first_index_present; apply Hshown, Hkeys;
        change (fst ?x) with (fst x); now apply in_map. }
    refine (StronglySorted_weaken _ _ _ _
              (sorted_with_ties _ _ (Hdesc (Pd.tally shown)) _)).
    + intros a b _ _ H. exact H.
    + intros n. rewrite Hties. apply StronglySorted_filter. exact Hfirst.
Qed.

Lemma value_counts_is_a_distribution_of_present_values_witness :
  list_sum (map snd (fuel_counts [Sample.helion; Sample.undisclosed])) = 1%nat
  /\ Z.of_nat (list_sum (map snd (fuel_counts Sample.four))) = len Sample.four
  /\ StronglySorted (ranked_before (col fuel_source Sample.four)) (fuel_counts Sample.four).
Proof.
  destruct (value_counts_is_a_distribution_of_present_values Pd.sort_desc
              [Sample.helion; Sample.undisclosed] fuel_source
              sort_desc_perm sort_desc_descending) as [_ [_ [H _]]].
  destruct (value_counts_is_a_distribution_of_present_values Pd.sort_desc
              Sample.four fuel_source
              sort_desc_perm sort_desc_descending) as [_ [_ [_ [H4 [_ [H' _]]]]]].
  split; [exact H|]. split; [exact (H4 eq_refl)|exact (H' sort_desc_keeps_ties)].
Defined.

(** ** Division of an amount by a scale *)

Section Rounding.

Lemma Zdigits2_log2 (p : positive) :
  Zdigits2 (Zpos p) = Z.log2 (Zpos p) + 1.
Proof.
  assert (H : forall q, digits2_pos q = Pos.size q).
  { induction q as [q IH|q IH|]; simpl; now rewrite ?IH. }
  simpl. rewrite H. destruct p; simpl; try reflexivity; now rewrite Pos2Z.inj_succ.
Qed.

(** [k] binary places are enough for [m]. *)
Lemma Zdigits2_shift (m m' k : Z) :
  0 < m' -> 0 <= k -> m' * 2 ^ k <= m -> Zdigits2 m' + k <= Zdigits2 m.
Proof.
  intros Hm' Hk Hle.
  assert (Hm : 0 < m).
  { assert (0 < 2 ^ k) by (apply Z.pow_pos_nonneg; lia). nia. }
  destruct m' as [|p'|p']; try lia. destruct m as [|p|p]; try lia.
  rewrite !Zdigits2_log2.
  assert (H := Z.log2_le_mono _ _ Hle).
  rewrite Z.log2_mul_pow2 in H by lia. lia.
Qed.

Lemma Zdigits2_succ (m : Z) :
  0 < m -> Zdigits2 (m + 1) <= Zdigits2 m + 1.
Proof.
  intros Hm. destruct m as [|p|p]; try lia.
  assert (H : Z.pos p + 1 = Z.pos (p + 1)) by lia. rewrite H, !Zdigits2_log2, <- H.
  assert (H2 := Z.log2_le_mono (Z.pos p + 1) (Z.pos p * 2 ^ 1) ltac:(lia)).
  rewrite Z.log2_mul_pow2 in H2 by lia. lia.
Qed.

Lemma shr_1_half (r : shr_record) :
  0 <= shr_m r -> 0 <= shr_m (shr_1 r) /\ shr_m (shr_1 r) * 2 <= shr_m r.
Proof.
  destruct r as [m r s]. simpl. intros Hm.
  destruct m as [|[p|p|]|p]; simpl; lia.
Qed.

Lemma iter_shr_1 (p : positive) (r : shr_record) :
  0 <= shr_m r ->
  0 <= shr_m (SpecFloat.iter_pos shr_1 p r) /\ shr_m (SpecFloat.iter_pos shr_1 p r) * 2 ^ Zpos p <= shr_m r.
Proof.
  revert r. induction p as [p IH|p IH|]; intros r Hr; simpl SpecFloat.iter_pos.
  - destruct (shr_1_half r Hr) as [H1 H1'].
    destruct (IH _ H1) as [H2 H2']. destruct (IH _ H2) as [H3 H3'].
    split; [assumption|].
    replace (Z.pos p~1) with (Z.pos p + Z.pos p + 1) by lia.
    rewrite !Z.pow_add_r, Z.pow_1_r by lia.
    assert (0 < 2 ^ Z.pos p) by (apply Z.pow_pos_nonneg; lia). nia.
  - destruct (IH _ Hr) as [H2 H2']. destruct (IH _ H2) as [H3 H3'].
    split; [assumption|].
    replace (Z.pos p~0) with (Z.pos p + Z.pos p) by lia.
    rewrite !Z.pow_add_r by lia.
    assert (0 < 2 ^ Z.pos p) by (apply Z.pow_pos_nonneg; lia). nia.
  - destruct (shr_1_half r Hr). split; [assumption|]. change (2 ^ 1) with 2. lia.
Qed.

Lemma shr_record_of_loc_m (m : Z) (l : SpecFloat.location) :
  shr_m (shr_record_of_loc m l) = m.
Proof.
  destruct l as [|[ | | ]]; reflexivity.
Qed.

Lemma fexp_binary64 (k : Z) :
  fexp Py.prec Py.emax k = Z.max (k - 53) (-1074).
Proof.
  reflexivity.
Qed.

(** A mantissa that needs no more than [K] places above the binary point
    keeps that property when it is shifted to its working exponent. *)
Lemma shr_fexp_fits (K m e : Z) (l : SpecFloat.location) :
  K <= 1024 -> 0 <= m -> e <= 971 -> (m = 0 \/ Zdigits2 m + e <= K) ->
  let '(r, e') := shr_fexp Py.prec Py.emax m e l in
  0 <= shr_m r /\ e' <= 971 /\ (shr_m r = 0 \/ Zdigits2 (shr_m r) + e' <= K).
Proof.
  intros HK Hm He Hfit. unfold shr_fexp, shr.
  destruct (fexp Py.prec Py.emax (Zdigits2 m + e) - e) as [|p|p] eqn:Hn;
    rewrite ?shr_record_of_loc_m; try (repeat split; assumption).
  destruct (iter_shr_1 p (shr_record_of_loc m l)) as [H1 H2];
    [now rewrite shr_record_of_loc_m|].
  rewrite shr_record_of_loc_m in H2.
  set (m' := shr_m (SpecFloat.iter_pos shr_1 p (shr_record_of_loc m l))) in *.
  rewrite fexp_binary64 in Hn.
  assert (Hzero : m = 0 -> Zdigits2 m = 0) by (now intros ->).
  split; [assumption|]. split.
  - usual_Z. destruct Hfit as [H0|Hfit]; [rewrite (Hzero H0) in Hn|]; lia.
  - usual_Z. destruct (Z.eq_dec m' 0) as [|Hm']; [now left|right].
    assert (Hd := Zdigits2_shift m m' (Zpos p) ltac:(lia) ltac:(lia) H2).
    destruct Hfit as [H0|Hfit]; [|lia].
    assert (0 < 2 ^ Z.pos p) by (apply Z.pow_pos_nonneg; lia). nia.
Qed.

Lemma round_nearest_even_fits (K m e : Z) (l : SpecFloat.location) :
  971 <= K -> 0 <= m -> e <= 971 -> (m = 0 \/ Zdigits2 m + e <= K) ->
  0 <= round_nearest_even m l
  /\ (round_nearest_even m l = 0 \/ Zdigits2 (round_nearest_even m l) + e <= K + 1).
Proof.
  intros HK Hm He Hfit.
  assert (Hsucc : 0 <= m + 1 /\ (m + 1 = 0 \/ Zdigits2 (m + 1) + e <= K + 1)).
  { split; [lia|right].
    destruct (Z.eq_dec m 0) as [->|]; [change (Zdigits2 (0 + 1)) with 1; lia|].
    destruct Hfit as [->|Hfit]; [congruence|].
    assert (H := Zdigits2_succ m ltac:(lia)). lia. }
  assert (Hsame : 0 <= m /\ (m = 0 \/ Zdigits2 m + e <= K + 1)).
  { split; [lia|]. destruct Hfit; [now left|right; lia]. }
  destruct l as [|[ | | ]]; simpl; try assumption.
  destruct (Z.even m); assumption.
Qed.

(** Rounding a mantissa that is not negative and not too long gives zero or
    a finite number, of the sign asked for. *)
Lemma binary_round_aux_finite (s : bool) (m e : Z) (l : SpecFloat.location) :
  0 <= m -> e <= 971 -> (m = 0 \/ Zdigits2 m + e <= 1023) ->
  binary_round_aux Py.prec Py.emax s m e l = S754_zero s
  \/ exists m' e', binary_round_aux Py.prec Py.emax s m e l = S754_finite s m' e'.
Proof.
  intros Hm He Hfit. unfold binary_round_aux.
  assert (H1 := shr_fexp_fits 1023 m e l ltac:(lia) Hm He Hfit).
  destruct (shr_fexp Py.prec Py.emax m e l) as [r1 e1].
  destruct H1 as [Hr1 [He1 Hfit1]].
  destruct (round_nearest_even_fits 1023 (shr_m r1) e1 (loc_of_shr_record r1)
              ltac:(lia) Hr1 He1 Hfit1) as [Hr Hfitr].
  assert (H2 := shr_fexp_fits 1024 _ e1 loc_Exact ltac:(lia) Hr He1 Hfitr).
  destruct (shr_fexp Py.prec Py.emax _ e1 loc_Exact) as [r2 e2].
  destruct H2 as [Hr2 [He2 _]].
  destruct (shr_m r2) as [|p|p]; [now left| |lia].
  right. exists p, e2. unfold Py.emax, Py.prec.
  destruct (Z.leb_spec e2 (1024 - 53)); [reflexivity|lia].
Qed.

End Rounding.

Section Division.

Lemma bounded_binary64 (m : positive) (e : Z) :
  bounded Py.prec Py.emax m e = true ->
  Zdigits2 (Zpos m) <= 53 /\ e <= 971.
Proof.
  unfold bounded, canonical_mantissa. intros H.
  apply andb_prop in H. destruct H as [Hc He].
  apply Z.eqb_eq in Hc. apply Z.leb_le in He.
  rewrite fexp_binary64 in Hc. unfold Py.emax, Py.prec in He.
  change (Zpos (digits2_pos m)) with (Zdigits2 (Zpos m)) in Hc.
  usual_Z. lia.
Qed.

(** The quotient before rounding is not negative and not too long, when the
    divisor has a full mantissa and is at least two. *)
Lemma SFdiv_core_fits (mx : positive) (ex : Z) (my : positive) (ey : Z) :
  bounded Py.prec Py.emax mx ex = true ->
  2 ^ 52 <= Zpos my -> -51 <= ey ->
  let '(q, e, _) := SFdiv_core_binary Py.prec Py.emax (Zpos mx) ex (Zpos my) ey in
  0 <= q /\ e <= 971 /\ (q = 0 \/ Zdigits2 q + e <= 1023).
Proof.
  intros Hx Hmy Hey. destruct (bounded_binary64 _ _ Hx) as [Hdx Hex].
  unfold SFdiv_core_binary.
  assert (Hdy : 53 <= Zdigits2 (Zpos my)).
  { rewrite Zdigits2_log2. apply Z.log2_le_pow2 in Hmy; lia. }
  set (dx := Zdigits2 (Zpos mx)) in *. set (dy := Zdigits2 (Zpos my)) in *.
  rewrite fexp_binary64. usual_Z.
  set (e := Z.min (Z.max (dx + ex - (dy + ey) - 53) (-1074)) (ex - ey)).
  assert (He : e <= 971) by (unfold e; lia).
  assert (Hs : 0 <= ex - ey - e) by (unfold e; lia).
  set (m := match ex - ey - e with
            | 0 => Zpos mx
            | Zpos _ => Z.shiftl (Zpos mx) (ex - ey - e)
            | Zneg _ => 0
            end).
  assert (Hm : m = Zpos mx * 2 ^ (ex - ey - e)).
  { unfold m. destruct (ex - ey - e) as [|s|s] eqn:Es; try lia.
    now rewrite Z.shiftl_mul_pow2 by lia. }
  assert (Hpow : 0 < 2 ^ (ex - ey - e)) by (apply Z.pow_pos_nonneg; lia).
  change (IntDef.Z.div_eucl m (Zpos my)) with (Z.div_eucl m (Zpos my)).
  assert (Hq : fst (Z.div_eucl m (Zpos my)) = m / Zpos my) by reflexivity.
  destruct (Z.div_eucl m (Zpos my)) as [q r]. simpl in Hq. subst q.
  assert (Hq0 : 0 <= m / Zpos my) by (apply Z.div_pos; nia).
  split; [assumption|]. split; [assumption|].
  destruct (Z.eq_dec (m / Zpos my) 0) as [|Hq]; [now left|right].
  assert (Hle : m / Zpos my * 2 ^ 52 <= m).
  { assert (H := Z.mul_div_le m (Zpos my) ltac:(lia)). nia. }
  assert (H1 := Zdigits2_shift m (m / Zpos my) 52 ltac:(lia) ltac:(lia) Hle).
  assert (H2 : Zdigits2 m = dx + (ex - ey - e)).
  { assert (Hmp : 0 < m) by nia. destruct m as [|pm|pm]; try lia.
    rewrite Zdigits2_log2, Hm, Z.log2_mul_pow2 by lia.
    unfold dx. rewrite Zdigits2_log2. lia. }
  lia.
Qed.

(** An amount that is finite and not negative, divided by a scale with a
    full mantissa that is at least two, is again finite and not negative. *)
Lemma fdiv_nonneg_finite (x : Py.float) (my : positive) (ey : Z) :
  nonneg_finite x = true ->
  2 ^ 52 <= Zpos my -> -51 <= ey ->
  Py.fdiv x (S754_finite false my ey) = S754_zero false
  \/ exists m e, Py.fdiv x (S754_finite false my ey) = S754_finite false m e.
Proof.
  intros Hx Hmy Hey.
  destruct x as [[|]|s| |[|] mx ex]; try discriminate; [now left|].
  unfold Py.fdiv, SFdiv. simpl in Hx.
  assert (H := SFdiv_core_fits mx ex my ey Hx Hmy Hey).
  destruct (SFdiv_core_binary Py.prec Py.emax (Zpos mx) ex (Zpos my) ey) as [[q e] l].
  destruct H as [Hq [He Hfit]].
  exact (binary_round_aux_finite false q e l Hq He Hfit).
Qed.

Lemma scaled_to_millions (x : Py.float) :
  nonneg_finite x = true ->
  Py.fdiv x Py.lit_1e6 = S754_zero false
  \/ exists m e, Py.fdiv x Py.lit_1e6 = S754_finite false m e.
Proof.
  intros Hx. apply (fdiv_nonneg_finite x 8589934592000000 (-33) Hx); [|lia].
  vm_compute. discriminate.
Qed.

Lemma scaled_to_billions (x : Py.float) :
  nonneg_finite x = true ->
  Py.fdiv x Py.lit_1e9 = S754_zero false
  \/ exists m e, Py.fdiv x Py.lit_1e9 = S754_finite false m e.
Proof.
  intros Hx. apply (fdiv_nonneg_finite x 8388608000000000 (-23) Hx); [|lia].
  vm_compute. discriminate.
Qed.

End Division.

(** ** How near the quotient is *)

Section Accuracy.

Lemma Zdigits2_below (m k : Z) :
  0 <= m < 2 ^ k -> 0 <= k -> Zdigits2 m <= k.
Proof.
  intros [Hm Hlt] Hk. destruct m as [|p|p]; [simpl; lia| |lia].
  rewrite Zdigits2_log2. apply Z.log2_lt_pow2 in Hlt; lia.
Qed.

Lemma Zdigits2_above (p : positive) :
  2 ^ (Zdigits2 (Zpos p) - 1) <= Zpos p.
Proof.
  rewrite Zdigits2_log2. replace (Z.log2 (Z.pos p) + 1 - 1) with (Z.log2 (Z.pos p)) by lia.
  apply Z.log2_spec. lia.
Qed.

Lemma shr_1_floor (r : shr_record) :
  0 <= shr_m r ->
  0 <= shr_m (shr_1 r) /\ shr_m (shr_1 r) * 2 <= shr_m r < (shr_m (shr_1 r) + 1) * 2.
Proof.
  destruct r as [m r s]. simpl. intros Hm.
  destruct m as [|[p|p|]|p]; simpl; lia.
Qed.

Lemma iter_shr_1_floor (p : positive) (r : shr_record) :
  0 <= shr_m r ->
  0 <= shr_m (SpecFloat.iter_pos shr_1 p r)
  /\ shr_m (SpecFloat.iter_pos shr_1 p r) * 2 ^ Zpos p <= shr_m r
     < (shr_m (SpecFloat.iter_pos shr_1 p r) + 1) * 2 ^ Zpos p.
Proof.
  revert r. induction p as [p IH|p IH|]; intros r Hr; simpl SpecFloat.iter_pos.
  - destruct (shr_1_floor r Hr) as [H1 H1'].
    destruct (IH _ H1) as [H2 H2']. destruct (IH _ H2) as [H3 H3'].
    split; [assumption|].
    replace (Z.pos p~1) with (Z.pos p + Z.pos p + 1) by lia.
    rewrite !Z.pow_add_r, Z.pow_1_r by lia.
    assert (0 < 2 ^ Z.pos p) by (apply Z.pow_pos_nonneg; lia). nia.
  - destruct (IH _ Hr) as [H2 H2']. destruct (IH _ H2) as [H3 H3'].
    split; [assumption|].
    replace (Z.pos p~0) with (Z.pos p + Z.pos p) by lia.
    rewrite !Z.pow_add_r by lia.
    assert (0 < 2 ^ Z.pos p) by (apply Z.pow_pos_nonneg; lia). nia.
  - destruct (shr_1_floor r Hr). split; [assumption|]. change (2 ^ 1) with 2. lia.
Qed.

(** Shifting a mantissa to its working exponent drops its last places:
    the new mantissa is the old one divided by a power of two, the
    remainder dropped.  A mantissa that becomes zero was shifted to the
    least exponent. *)
Lemma shr_fexp_floor (m e : Z) (l : SpecFloat.location) :
  0 <= m ->
  let '(r, e') := shr_fexp Py.prec Py.emax m e l in
  0 <= shr_m r /\ e <= e'
  /\ shr_m r * 2 ^ (e' - e) <= m < (shr_m r + 1) * 2 ^ (e' - e)
  /\ (shr_m r = 0 -> e' = -1074 \/ (e' = e /\ m = 0)).
Proof.
  intros Hm. unfold shr_fexp, shr.
  destruct (fexp Py.prec Py.emax (Zdigits2 m + e) - e) as [|p|p] eqn:Hn;
    rewrite ?shr_record_of_loc_m.
  - replace (e - e) with 0 by lia. change (2 ^ 0) with 1.
    repeat split; lia.
  - destruct (iter_shr_1_floor p (shr_record_of_loc m l)) as [H1 H2];
      [now rewrite shr_record_of_loc_m|].
    rewrite shr_record_of_loc_m in H2.
    set (m' := shr_m (SpecFloat.iter_pos shr_1 p (shr_record_of_loc m l))) in *.
    usual_Z. replace (e + Z.pos p - e) with (Z.pos p) by lia.
    split; [assumption|]. split; [lia|]. split; [assumption|].
    intros Hz. left. rewrite Hz in H2.
    assert (Hd := Zdigits2_below m (Z.pos p) ltac:(lia) ltac:(lia)).
    rewrite fexp_binary64 in Hn. lia.
  - replace (e - e) with 0 by lia. change (2 ^ 0) with 1.
    repeat split; lia.
Qed.

Lemma round_nearest_even_near (m : Z) (l : SpecFloat.location) :
  m <= round_nearest_even m l <= m + 1.
Proof.
  destruct l as [|[ | | ]]; simpl; try lia. destruct (Z.even m); lia.
Qed.

(** The rounded mantissa [m2] at exponent [e2] is within one unit of the
    mantissa [m] at exponent [e] it was rounded from. *)
Lemma binary_round_aux_near (s : bool) (m e : Z) (l : SpecFloat.location) :
  0 <= m ->
  exists m2 e2,
    0 <= m2 /\ e <= e2
    /\ (m2 - 1) * 2 ^ (e2 - e) <= m /\ m + 1 <= (m2 + 1) * 2 ^ (e2 - e)
    /\ (m2 = 0 -> e2 = -1074 \/ (e2 = e /\ m = 0))
    /\ binary_round_aux Py.prec Py.emax s m e l
       = match m2 with
         | 0 => S754_zero s
         | Zpos p => if e2 <=? Py.emax - Py.prec then S754_finite s p e2
                     else S754_infinity s
         | Zneg _ => S754_nan
         end.
Proof.
  intros Hm. unfold binary_round_aux.
  assert (H1 := shr_fexp_floor m e l Hm).
  destruct (shr_fexp Py.prec Py.emax m e l) as [r1 e1].
  destruct H1 as [Hr1 [He1 [Hf1 Hz1]]].
  set (m1 := shr_m r1) in *.
  assert (Hrr := round_nearest_even_near m1 (loc_of_shr_record r1)).
  set (rr := round_nearest_even m1 (loc_of_shr_record r1)) in *.
  assert (H2 := shr_fexp_floor rr e1 loc_Exact ltac:(lia)).
  destruct (shr_fexp Py.prec Py.emax rr e1 loc_Exact) as [r2 e2].
  destruct H2 as [Hr2 [He2 [Hf2 Hz2]]].
  set (m2 := shr_m r2) in *.
  exists m2, e2.
  assert (Hp1 : 0 < 2 ^ (e1 - e)) by (apply Z.pow_pos_nonneg; lia).
  assert (Hp2 : 0 < 2 ^ (e2 - e1)) by (apply Z.pow_pos_nonneg; lia).
  assert (Hpow : 2 ^ (e2 - e) = 2 ^ (e2 - e1) * 2 ^ (e1 - e)).
  { rewrite <- Z.pow_add_r by lia. f_equal. lia. }
  split; [assumption|]. split; [lia|]. rewrite Hpow.
  split; [nia|]. split; [nia|]. split; [|reflexivity].
  intros Hz. destruct (Hz2 Hz) as [->|[-> Hrr0]]; [now left|].
  assert (Hm1 : m1 = 0) by lia.
  destruct (Hz1 Hm1) as [->|[-> ->]]; [now left|right; split; reflexivity].
Qed.

(** The quotient before rounding: the mantissa is the quotient of the
    mantissas, one of them shifted, the remainder dropped; and it is zero
    only at an exponent that is not above the least. *)
Lemma SFdiv_core_floor (mx : positive) (ex : Z) (my : positive) (ey : Z) :
  Zdigits2 (Zpos mx) <= 53 ->
  let '(q, e, _) := SFdiv_core_binary Py.prec Py.emax (Zpos mx) ex (Zpos my) ey in
  0 <= q /\ e <= ex - ey
  /\ q * Zpos my <= Zpos mx * 2 ^ (ex - ey - e) < (q + 1) * Zpos my
  /\ (q = 0 -> e <= -1074).
Proof.
  intros Hdx53. unfold SFdiv_core_binary.
  set (dx := Zdigits2 (Zpos mx)) in *. set (dy := Zdigits2 (Zpos my)).
  rewrite fexp_binary64. usual_Z.
  set (e := Z.min (Z.max (dx + ex - (dy + ey) - 53) (-1074)) (ex - ey)).
  assert (Hs : 0 <= ex - ey - e) by (unfold e; lia).
  set (m := match ex - ey - e with
            | 0 => Zpos mx
            | Zpos _ => Z.shiftl (Zpos mx) (ex - ey - e)
            | Zneg _ => 0
            end).
  assert (Hm : m = Zpos mx * 2 ^ (ex - ey - e)).
  { unfold m. destruct (ex - ey - e) as [|s|s] eqn:Es; try lia.
    now rewrite Z.shiftl_mul_pow2 by lia. }
  assert (Hpow : 0 < 2 ^ (ex - ey - e)) by (apply Z.pow_pos_nonneg; lia).
  change (IntDef.Z.div_eucl m (Zpos my)) with (Z.div_eucl m (Zpos my)).
  assert (Hq : fst (Z.div_eucl m (Zpos my)) = m / Zpos my) by reflexivity.
  destruct (Z.div_eucl m (Zpos my)) as [q r]. simpl in Hq. subst q.
  assert (Hq0 : 0 <= m / Zpos my) by (apply Z.div_pos; nia).
  assert (Hdiv := Z.div_mod m (Zpos my) ltac:(lia)).
  assert (Hmod := Z.mod_pos_bound m (Zpos my) ltac:(lia)).
  split; [assumption|]. split; [unfold e; lia|]. rewrite <- Hm. split; [nia|].
  intros Hz. destruct (Z.le_gt_cases e (-1074)) as [|He]; [assumption|exfalso].
  assert (Hx := Zdigits2_above mx). fold dx in Hx.
  assert (Hy : Zpos my < 2 ^ dy).
  { unfold dy. rewrite Zdigits2_log2. apply Z.log2_spec. lia. }
  assert (Hdx : 1 <= dx).
  { unfold dx. rewrite Zdigits2_log2. pose proof (Z.log2_nonneg (Zpos mx)). lia. }
  assert (Hdy : 1 <= dy).
  { unfold dy. rewrite Zdigits2_log2. pose proof (Z.log2_nonneg (Zpos my)). lia. }
  assert (Hshift : dy - dx + 1 <= ex - ey - e).
  { clear - He Hdx53 Hdy. subst e. clearbody dx dy. lia. }
  assert (Hbig : 2 ^ dy <= m).
  { rewrite Hm.
    assert (H1 : 2 ^ dy <= 2 ^ (dx - 1 + (ex - ey - e))) by (apply Z.pow_le_mono_r; lia).
    rewrite Z.pow_add_r in H1 by lia. nia. }
  rewrite Hz in Hdiv. lia.
Qed.

End Accuracy.

Section Quotient.

Local Open Scope Q_scope.

Lemma two_power_pos (e : Z) : 0 < 2 ^ e.
Proof.
  apply Qpower_0_lt. reflexivity.
Qed.

Lemma two_power_plus (a b : Z) : 2 ^ (a + b) == 2 ^ a * 2 ^ b.
Proof.
  apply Qpower_plus. discriminate.
Qed.

Lemma two_power_Z (n : Z) : (0 <= n)%Z -> 2 ^ n == inject_Z (2 ^ n).
Proof.
  intros Hn. now rewrite Zpower_Qpower.
Qed.

(** The value of a float is its mantissa at its exponent. *)
Lemma exact_value_finite (m : positive) (e : Z) :
  exact_value (S754_finite false m e) == inject_Z (Zpos m) * 2 ^ e.
Proof.
  unfold exact_value. destruct (Z.leb_spec 0 e) as [He|He].
  - rewrite inject_Z_mult, two_power_Z by assumption. reflexivity.
  - replace e with (- (- e))%Z at 2 by lia.
    rewrite Qpower_opp, two_power_Z by lia.
    rewrite <- (Z2Pos.id (2 ^ (- e))) by (apply Z.pow_pos_nonneg; lia).
    rewrite Z2Pos.inj_pow by lia. change (Z.to_pos 2) with 2%positive.
    unfold Qeq, Qmult, Qinv, inject_Z. cbn [Qnum Qden].
    now rewrite Pos.mul_1_l, Z.mul_1_r.
Qed.

(** From a bracket of the scaled mantissas to a bracket of the quotient. *)
Lemma quotient_bracket (m2 e2 mx ex my ey e0 : Z) :
  (0 < my)%Z -> (e0 <= e2)%Z -> (e0 <= ex - ey)%Z ->
  ((m2 - 1) * 2 ^ (e2 - e0) * my <= mx * 2 ^ (ex - ey - e0))%Z ->
  (mx * 2 ^ (ex - ey - e0) <= (m2 + 1) * 2 ^ (e2 - e0) * my)%Z ->
  let v := (inject_Z mx * 2 ^ ex) / (inject_Z my * 2 ^ ey) in
  inject_Z m2 * 2 ^ e2 - 2 ^ e2 <= v <= inject_Z m2 * 2 ^ e2 + 2 ^ e2.
Proof.
  intros Hmy He2 Hs Hlo Hhi v. subst v.
  assert (Hy : 0 < inject_Z my * 2 ^ ey).
  { apply Qmult_lt_0_compat; [|apply two_power_pos].
    unfold Qlt, inject_Z. cbn [Qnum Qden]. lia. }
  assert (Hw := two_power_pos (e0 + ey)).
  assert (E2 : 2 ^ e2 == inject_Z (2 ^ (e2 - e0)) * 2 ^ e0).
  { rewrite <- two_power_Z, <- two_power_plus by lia.
    replace (e2 - e0 + e0)%Z with e2 by lia. reflexivity. }
  assert (Ex : 2 ^ ex == inject_Z (2 ^ (ex - ey - e0)) * (2 ^ e0 * 2 ^ ey)).
  { rewrite <- two_power_Z, <- !two_power_plus by lia.
    replace (ex - ey - e0 + (e0 + ey))%Z with ex by lia. reflexivity. }
  rewrite Zle_Qle in Hlo, Hhi. rewrite !inject_Z_mult in Hlo, Hhi.
  rewrite inject_Z_plus in Hhi.
  replace (m2 - 1)%Z with (m2 + -1)%Z in Hlo by lia. rewrite inject_Z_plus in Hlo.
  apply (Qmult_le_compat_r _ _ (2 ^ e0 * 2 ^ ey)) in Hlo;
    [|apply Qlt_le_weak, Qmult_lt_0_compat; apply two_power_pos].
  apply (Qmult_le_compat_r _ _ (2 ^ e0 * 2 ^ ey)) in Hhi;
    [|apply Qlt_le_weak, Qmult_lt_0_compat; apply two_power_pos].
  split.
  - apply Qle_shift_div_l; [assumption|]. rewrite E2, Ex.
    change (inject_Z (-1)) with (- (1)) in Hlo.
    match type of Hlo with ?a <= ?b =>
      match goal with |- ?c <= ?d =>
        setoid_replace c with a by ring; setoid_replace d with b by ring
      end
    end.
    exact Hlo.
  - apply Qle_shift_div_r; [assumption|]. rewrite E2, Ex.
    change (inject_Z 1) with 1 in Hhi.
    match type of Hhi with ?a <= ?b =>
      match goal with |- ?c <= ?d =>
        setoid_replace c with a by ring; setoid_replace d with b by ring
      end
    end.
    exact Hhi.
Qed.

(** The binary64 quotient of an amount by a scale is within one unit of
    its last place of the exact quotient. *)
Lemma fdiv_near (x : Py.float) (my : positive) (ey : Z) :
  nonneg_finite x = true ->
  (2 ^ 52 <= Zpos my)%Z -> (-51 <= ey)%Z ->
  let r := Py.fdiv x (S754_finite false my ey) in
  let v := exact_value x / exact_value (S754_finite false my ey) in
  exact_value r - last_place r <= v <= exact_value r + last_place r.
Proof.
  intros Hx Hmy Hey r v.
  assert (Hfin := fdiv_nonneg_finite x my ey Hx Hmy Hey). fold r in Hfin.
  destruct x as [[|]|sx| |[|] mx ex]; try discriminate.
  - subst r v. cbn. unfold Qdiv. rewrite Qmult_0_l. split; vm_compute; discriminate.
  - simpl in Hx. destruct (bounded_binary64 _ _ Hx) as [Hdx Hex].
    subst v. rewrite !exact_value_finite.
    unfold r, Py.fdiv, SFdiv in *.
    assert (Hc := SFdiv_core_floor mx ex my ey Hdx).
    destruct (SFdiv_core_binary Py.prec Py.emax (Zpos mx) ex (Zpos my) ey) as [[q e0] l].
    destruct Hc as [Hq [He0 [[Hq1 Hq2] Hq0]]].
    destruct (binary_round_aux_near (xorb false false) q e0 l Hq)
      as [m2 [e2 [Hm2 [He2 [Hlo [Hhi [Hz Hr]]]]]]].
    assert (Hp : (0 < 2 ^ (e2 - e0))%Z) by (apply Z.pow_pos_nonneg; lia).
    assert (Hb := quotient_bracket m2 e2 (Zpos mx) ex (Zpos my) ey e0
                    ltac:(lia) He2 He0 ltac:(nia) ltac:(nia)).
    cbv zeta in Hb. rewrite Hr in *. clear Hr.
    destruct m2 as [|p|p]; [| |lia].
    + assert (He : (e2 <= -1074)%Z) by (destruct (Hz eq_refl) as [|[-> ->]]; [lia|auto]).
      assert (Hle : 2 ^ e2 <= 2 ^ (-1074)).
      { apply Qpower_le_compat_l; [assumption|discriminate]. }
      cbn [exact_value last_place]. change (inject_Z 0) with 0 in Hb.
      rewrite Qmult_0_l in Hb. destruct Hb as [Hb1 Hb2]. split.
      * eapply Qle_trans; [|exact Hb1]. unfold Qminus. rewrite !Qplus_0_l.
        now apply Qopp_le_compat.
      * eapply Qle_trans; [exact Hb2|]. rewrite !Qplus_0_l. assumption.
    + destruct Hfin as [Hfin|[m' [e' Hfin]]].
      * destruct (e2 <=? Py.emax - Py.prec)%Z; discriminate.
      * destruct (e2 <=? Py.emax - Py.prec)%Z; [|discriminate].
        cbn [last_place]. rewrite exact_value_finite. exact Hb.
Qed.

End Quotient.

(** ** C8: amounts of money *)

Lemma all_digits_uint (d : Decimal.uint) :
  all_digits (NilEmpty.string_of_uint d) = true.
Proof.
  induction d; simpl; auto.
Qed.

Lemma digits_whole (n : Z) : whole (Py.digits n) = true.
Proof.
  unfold Py.digits, NilZero.string_of_uint.
  destruct (N.to_uint (Z.to_N n)) as [|d|d|d|d|d|d|d|d|d|d];
    try reflexivity; exact (all_digits_uint d).
Qed.

Lemma digits_one (n : Z) :
  0 <= n < 10 -> exists c, Py.digits n = String c EmptyString /\ is_digit c = true.
Proof.
  intros H. destruct n as [|p|p]; [| |lia].
  - eexists. split; reflexivity.
  - repeat (destruct p as [p|p|]; try lia); eexists; split; reflexivity.
Qed.

Lemma digit_not_point (c : ascii) (s : string) (b : bool) :
  is_digit c = true ->
  match String c s with
  | String "." (String d EmptyString) => is_digit d
  | _ => b
  end = b.
Proof.
  destruct c as [[] [] [] [] [] [] [] []]; intros H; try discriminate H; reflexivity.
Qed.

Lemma one_decimal_app (w : string) (d : ascii) :
  whole w = true -> is_digit d = true ->
  one_decimal (w ++ "." ++ String d EmptyString) = true.
Proof.
  intros Hw Hd. induction w as [|c w IH]; [discriminate|].
  simpl in Hw. apply andb_prop in Hw. destruct Hw as [Hc Hw].
  cbn [append one_decimal]. rewrite Hc. cbn [andb].
  destruct w as [|c' w].
  - simpl. exact Hd.
  - cbn [append]. simpl in Hw. 
    assert (Hc' : is_digit c' = true) by (now apply andb_prop in Hw).
    rewrite digit_not_point by assumption.
    apply IH. simpl. exact Hw.
Qed.

Lemma format_f_0_whole (v : Py.float) :
  (v = S754_zero false \/ exists m e, v = S754_finite false m e) ->
  whole (Py.format_f 0 v) = true.
Proof.
  intros [->|[m [e ->]]]; cbn [Py.format_f Py.sign_str Py.fixed_digits append];
    apply digits_whole.
Qed.

Lemma fixed_digits_1 (n : Z) : one_decimal (Py.fixed_digits 1 n) = true.
Proof.
  cbn [Py.fixed_digits]. change (10 ^ Z.of_nat 1) with 10.
  destruct (digits_one (n mod 10)) as [c [Hc Hd]];
    [apply Z.mod_pos_bound; lia|].
  rewrite Hc. change (Py.pad_zeros 1 (String c EmptyString)) with (String c EmptyString).
  apply one_decimal_app; [apply digits_whole|assumption].
Qed.

Lemma format_f_1_one_decimal (v : Py.float) :
  (v = S754_zero false \/ exists m e, v = S754_finite false m e) ->
  one_decimal (Py.format_f 1 v) = true.
Proof.
  intros [->|[m [e ->]]]; cbn [Py.format_f Py.sign_str append];
    apply fixed_digits_1.
Qed.

Lemma number_of_digits (n : Z) : 0 <= n -> number_of (Py.digits n) = Some n.
Proof.
  intros Hn. unfold number_of, Py.digits.
  assert (H : forall d, option_map (fun u => Z.of_N (N.of_uint u))
                (NilZero.uint_of_string (NilZero.string_of_uint d))
              = Some (Z.of_N (N.of_uint d))).
  { intros d. destruct d; try reflexivity;
      (rewrite NilZero.usu by discriminate; reflexivity). }
  rewrite H, DecimalN.Unsigned.of_to, Z2N.id by assumption. reflexivity.
Qed.

Lemma split_point_digits (w : string) :
  all_digits w = true -> split_point w = (w, None).
Proof.
  induction w as [|c w IH]; [reflexivity|]. simpl. intros H.
  apply andb_prop in H. destruct H as [Hc Hw].
  destruct (Ascii.eqb_spec c "."); [subst; discriminate|].
  now rewrite IH.
Qed.

Lemma split_point_app (w f : string) :
  all_digits w = true -> split_point (w ++ "." ++ f) = (w, Some f).
Proof.
  change ("." ++ f) with (String "." f).
  induction w as [|c w IH]; [reflexivity|]. simpl. intros H.
  apply andb_prop in H. destruct H as [Hc Hw].
  destruct (Ascii.eqb_spec c "."); [subst; discriminate|].
  now rewrite IH.
Qed.

Lemma whole_all_digits (w : string) : whole w = true -> all_digits w = true.
Proof.
  destruct w; [discriminate|auto].
Qed.

Lemma round_scaled_nonneg (d : nat) (m : positive) (e : Z) :
  0 <= Py.round_scaled d m e.
Proof.
  unfold Py.round_scaled. destruct (0 <=? e) eqn:He.
  - apply Z.leb_le in He. apply Z.mul_nonneg_nonneg; [|apply Z.pow_nonneg; lia].
    apply Z.mul_nonneg_nonneg; [lia|apply Z.pow_nonneg; lia].
  - apply Z.leb_gt in He.
    assert (0 < 2 ^ (- e)) by (apply Z.pow_pos_nonneg; lia).
    assert (0 <= Z.pos m * 10 ^ Z.of_nat d)
      by (apply Z.mul_nonneg_nonneg; [lia|apply Z.pow_nonneg; lia]).
    assert (0 <= Z.pos m * 10 ^ Z.of_nat d / 2 ^ (- e)) by (apply Z.div_pos; lia).
    cbv zeta. destruct (_ ?= _); [destruct (Z.even _)| |]; lia.
Qed.

(** The rounding of [format] is rounding to nearest, ties to even, of the
    value the float stands for. *)
Lemma round_scaled_nearest (d : nat) (m : positive) (e : Z) :
  Py.round_scaled d m e
  = nearest_even (exact_value (S754_finite false m e) * inject_Z (10 ^ Z.of_nat d)).
Proof.
  unfold Py.round_scaled, exact_value, nearest_even.
  set (t := 10 ^ Z.of_nat d).
  destruct (0 <=? e) eqn:He.
  - unfold Qfloor, Qcompare, Qminus, Qplus, Qmult, Qopp, inject_Z. cbn [Qnum Qden].
    rewrite !Z.mul_1_r, Z.div_1_r.
    replace (Z.pos m * 2 ^ e * t + - (Z.pos m * 2 ^ e * t)) with 0 by ring.
    change (0 * 2 ?= 1) with Lt. cbv iota. ring.
  - apply Z.leb_gt in He.
    assert (Hden : Z.pos (2 ^ Z.to_pos (- e)) = 2 ^ (- e)).
    { rewrite Pos2Z.inj_pow, Z2Pos.id by lia. reflexivity. }
    unfold Qfloor, Qcompare, Qminus, Qplus, Qmult, Qopp, inject_Z. cbn [Qnum Qden].
    rewrite !Pos.mul_1_r, !Z.mul_1_r, Hden.
    set (num := Z.pos m * t). set (den := 2 ^ (- e)).
    assert (Hpos : 0 < den) by (apply Z.pow_pos_nonneg; lia).
    replace ((num + - (num / den) * den) * 2) with (2 * (num mod den))
      by (rewrite Z.mod_eq by lia; ring).
    rewrite Z.mul_1_l. reflexivity.
Qed.

Lemma writes_fixed_0 (n : Z) :
  0 <= n -> writes (Py.fixed_digits 0 n) (inject_Z n).
Proof.
  intros Hn. exists (inject_Z n). split; [|reflexivity].
  unfold decimal_value. cbn [Py.fixed_digits].
  rewrite split_point_digits by apply whole_all_digits, digits_whole.
  now rewrite number_of_digits.
Qed.

Lemma writes_fixed_1 (n : Z) :
  0 <= n -> writes (Py.fixed_digits 1 n) (inject_Z n / 10).
Proof.
  intros Hn. cbn [Py.fixed_digits]. change (10 ^ Z.of_nat 1) with 10.
  assert (Hr : 0 <= n mod 10 < 10) by (apply Z.mod_pos_bound; lia).
  destruct (digits_one (n mod 10) Hr) as [c [Hc Hd]].
  assert (Hf : Py.pad_zeros 1 (Py.digits (n mod 10)) = Py.digits (n mod 10)).
  { rewrite Hc. reflexivity. }
  rewrite Hf. eexists. split.
  - unfold decimal_value.
    rewrite split_point_app by apply whole_all_digits, digits_whole.
    rewrite !number_of_digits by (try apply Z.div_pos; lia).
    rewrite Hc. reflexivity.
  - cbn [String.length Pos.of_nat]. change (Pos.pow 10 1) with 10%positive.
    unfold Qeq, Qdiv, Qmult, Qplus, Qinv, inject_Z. cbn [Qnum Qden].
    rewrite (Z.div_mod n 10) at 3 by lia. ring.
Qed.

(** What [format] writes with no decimal, and with one. *)
Lemma format_f_0_writes (v : Py.float) :
  (v = S754_zero false \/ exists m e, v = S754_finite false m e) ->
  writes (Py.format_f 0 v) (inject_Z (nearest_even (exact_value v))).
Proof.
  intros [->|[m [e ->]]]; cbn [Py.format_f Py.sign_str append].
  - apply (writes_fixed_0 0). lia.
  - destruct (writes_fixed_0 _ (round_scaled_nonneg 0 m e)) as [q [Hq Hv]].
    exists q. split; [assumption|]. rewrite Hv, round_scaled_nearest.
    change (inject_Z (10 ^ Z.of_nat 0)) with (inject_Z 1).
    set (v := exact_value _). replace (v * inject_Z 1)%Q with v; [reflexivity|].
    destruct v as [a b]. unfold Qmult, inject_Z. cbn [Qnum Qden].
    now rewrite Z.mul_1_r, Pos.mul_1_r.
Qed.

Lemma format_f_1_writes (v : Py.float) :
  (v = S754_zero false \/ exists m e, v = S754_finite false m e) ->
  writes (Py.format_f 1 v) (inject_Z (nearest_even (exact_value v * 10)) / 10).
Proof.
  intros [->|[m [e ->]]]; cbn [Py.format_f Py.sign_str append].
  - apply (writes_fixed_1 0). lia.
  - destruct (writes_fixed_1 _ (round_scaled_nonneg 1 m e)) as [q [Hq Hv]].
    exists q. split; [assumption|]. rewrite Hv, round_scaled_nearest. reflexivity.
Qed.

(** C8, as stated, fails: the funding metric of a company shows whole
    millions, with no decimal digit. *)
Lemma company_funding_metric_has_no_decimal :
  funding_metric Sample.helion = "$2500M"
  /\ money one_decimal "M" (funding_metric Sample.helion) = false.
Proof.
  split; vm_compute; reflexivity.
Qed.

(** C8, amended: for every funding amount that is a finite number and not
    negative, the funding column of the table shows "$X.XM", where X.X has
    exactly one decimal digit and is the amount in millions rounded to the
    nearest tenth; the funding metric of a company shows "$XM", where X has
    no decimal digit and is the amount in millions rounded to the nearest
    whole number; the total funding metric of a view that is not empty,
    whose amounts are not negative and add up to no more than 2^53 dollars,
    shows "$X.XB", where X.X has exactly one decimal digit and is the total
    in billions rounded to the nearest tenth; and that of an empty view
    shows "$0B".  The amount in millions or billions is the binary64
    quotient of the amount by 1e6 or 1e9: these stand for 10^6 and 10^9
    exactly, and the quotient differs from the amount divided by 10^6 or 10^9
    by no more than one unit of its last binary place.  Of two nearest
    values the one with an even last digit is shown. *)
Theorem currency_formats (x : Py.float) :
  nonneg_finite x = true ->
  let millions := SFdiv 53 1024 x Py.lit_1e6 in
  let billions := SFdiv 53 1024 x Py.lit_1e9 in
  (exact_value Py.lit_1e6 == inject_Z (10 ^ 6))%Q
  /\ (exact_value Py.lit_1e9 == inject_Z (10 ^ 9))%Q
  /\ (exact_value millions - last_place millions
      <= exact_value x / inject_Z (10 ^ 6)
      <= exact_value millions + last_place millions)%Q
  /\ (exact_value billions - last_place billions
      <= exact_value x / inject_Z (10 ^ 9)
      <= exact_value billions + last_place billions)%Q
  /\ (exists shown,
        funding_column x = "$" ++ shown ++ "M"
        /\ one_decimal shown = true
        /\ writes shown (inject_Z (nearest_even (exact_value millions * 10)) / 10))
  /\ (forall c, funding_amount c = x ->
      exists shown,
        funding_metric c = "$" ++ shown ++ "M"
        /\ whole shown = true
        /\ writes shown (inject_Z (nearest_even (exact_value millions))))
  /\ (forall view,
      empty view = false ->
      exactly_summed (col funding_amount view) ->
      Pd.sum (col funding_amount view) = x ->
      exists shown,
        total_funding_card view
        = ([st_metric "Total Funding" ("$" ++ shown ++ "B")], Returned tt)
        /\ one_decimal shown = true
        /\ writes shown (inject_Z (nearest_even (exact_value billions * 10)) / 10))
  /\ total_funding_card [] = ([st_metric "Total Funding" "$0B"], Returned tt).
Proof.
  intros Hx millions billions.
  assert (Hm := scaled_to_millions x Hx). assert (Hb := scaled_to_billions x Hx).
  assert (E6 : (exact_value Py.lit_1e6 == inject_Z (10 ^ 6))%Q) by reflexivity.
  assert (E9 : (exact_value Py.lit_1e9 == inject_Z (10 ^ 9))%Q) by reflexivity.
  split; [exact E6|]. split; [exact E9|].
  split; [|split; [|split; [|split; [|split; [|reflexivity]]]]].
  - assert (Hn := fdiv_near x 8589934592000000 (-33) Hx ltac:(lia) ltac:(lia)).
    cbv zeta in Hn.
    change (S754_finite false 8589934592000000 (-33)) with Py.lit_1e6 in Hn.
    rewrite E6 in Hn. exact Hn.
  - assert (Hn := fdiv_near x 8388608000000000 (-23) Hx ltac:(lia) ltac:(lia)).
    cbv zeta in Hn.
    change (S754_finite false 8388608000000000 (-23)) with Py.lit_1e9 in Hn.
    rewrite E9 in Hn. exact Hn.
  - eexists. split; [reflexivity|]. split.
    + now apply format_f_1_one_decimal.
    + now apply format_f_1_writes.
  - intros c <-. eexists. split; [reflexivity|]. split.
    + now apply format_f_0_whole.
    + now apply format_f_0_writes.
  - intros view Hview _ Hsum. unfold total_funding_card, total_funding.
    rewrite Hview, Hsum. cbn [negb]. eexists. split; [reflexivity|]. split.
    + now apply format_f_1_one_decimal.
    + now apply format_f_1_writes.
Qed.

Lemma currency_formats_witness :
  (exists shown,
     funding_column (funding_amount Sample.helion) = "$" ++ shown ++ "M"
     /\ one_decimal shown = true /\ writes shown (2500 # 1))
  /\ (exists shown,
       funding_metric Sample.helion = "$" ++ shown ++ "M"
       /\ whole shown = true /\ writes shown (2500 # 1))
  /\ (exists shown,
       total_funding_card Sample.four
       = ([st_metric "Total Funding" ("$" ++ shown ++ "B")], Returned tt)
       /\ one_decimal shown = true /\ writes shown (36 # 10)).
Proof.
  destruct (currency_formats (funding_amount Sample.helion))
    as [_ [_ [_ [_ [H1 [H2 _]]]]]]; [reflexivity|].
  destruct (currency_formats (Pd.sum (col funding_amount Sample.four)))
    as [_ [_ [_ [_ [_ [_ [H3 _]]]]]]]; [reflexivity|].
  destruct H1 as [s1 [E1 [D1 [q1 [V1 Q1]]]]].
  destruct (H2 Sample.helion eq_refl) as [s2 [E2 [D2 [q2 [V2 Q2]]]]].
  destruct (H3 Sample.four eq_refl) as [s3 [E3 [D3 [q3 [V3 Q3]]]]].
  { split; [repeat constructor; right; reflexivity|]. vm_compute. discriminate. }
  { reflexivity. }
  split; [|split].
  - exists s1. split; [exact E1|]. split; [exact D1|]. exists q1. split; [exact V1|].
    rewrite Q1. vm_compute. reflexivity.
  - exists s2. split; [exact E2|]. split; [exact D2|]. exists q2. split; [exact V2|].
    rewrite Q2. vm_compute. reflexivity.
  - exists s3. split; [exact E3|]. split; [exact D3|]. exists q3. split; [exact V3|].
    rewrite Q3. vm_compute. reflexivity.
Defined.

(** ** The filters give a view *)

Lemma iter_xO_pow2 (m d : positive) :
  Zpos (Pos.iter xO m d) = Zpos m * 2 ^ Zpos d.
Proof.
  induction d as [|d IH] using Pos.peano_ind.
  - simpl. lia.
  - rewrite Pos.iter_succ, Pos2Z.inj_succ, Z.pow_succ_r by lia.
    rewrite Pos2Z.inj_xO, IH. lia.
Qed.

(** An integer below 2^1023 in size converts to a finite float. *)
Lemma float_of_int_finite (n : Z) :
  Z.abs n < 2 ^ 1023 -> isfinite (Py.float_of_int n) = true.
Proof.
  intros Hn. unfold Py.float_of_int, binary_normalize.
  assert (H : forall s m, Zpos m < 2 ^ 1023 ->
            isfinite (binary_round Py.prec Py.emax s m 0) = true).
  { intros s m Hm. unfold binary_round, shl_align.
    rewrite fexp_binary64.
    change (Zpos (digits2_pos m)) with (Zdigits2 (Zpos m)).
    assert (Hd : Zdigits2 (Zpos m) <= 1023).
    { rewrite Zdigits2_log2.
      assert (Z.log2 (Zpos m) < 1023) by (apply Z.log2_lt_pow2; lia). lia. }
    usual_Z.
    assert (Hround : forall mz ez, 0 <= mz -> ez <= 971 ->
              (mz = 0 \/ Zdigits2 mz + ez <= 1023) ->
              isfinite (binary_round_aux Py.prec Py.emax s mz ez loc_Exact) = true).
    { intros mz ez H1 H2 H3.
      destruct (binary_round_aux_finite s mz ez loc_Exact H1 H2 H3) as [->|[m' [e' ->]]];
        reflexivity. }
    destruct (Z.max (Zdigits2 (Zpos m) + 0 - 53) (-1074) - 0) as [|d|d] eqn:Hshift.
    - apply Hround; lia.
    - apply Hround; lia.
    - apply Hround; [lia|lia|right].
      rewrite iter_xO_pow2.
      assert (Hz : Zdigits2 (Zpos m * 2 ^ Zpos d) = Zdigits2 (Zpos m) + Zpos d).
      { assert (Hp : 0 < Zpos m * 2 ^ Zpos d)
          by (apply Z.mul_pos_pos; [lia|apply Z.pow_pos_nonneg; lia]).
        destruct (Zpos m * 2 ^ Zpos d) as [|q|q] eqn:Eq; try lia.
        rewrite !Zdigits2_log2, <- Eq, Z.log2_mul_pow2 by lia. lia. }
      rewrite Hz. lia. }
  destruct n as [|m|m]; [reflexivity|apply H; lia|apply H; lia].
Qed.

Lemma threshold_returns (n : Z) :
  Z.abs n < 2 ^ 1023 -> exists t, threshold n = Returned t.
Proof.
  intros Hn. unfold threshold.
  assert (H := float_of_int_finite n Hn).
  destruct (Py.float_of_int n); try discriminate H; eauto.
Qed.

(** With a search term of ordinary characters and a threshold of ordinary
    size the filters always give a view. *)
Lemma apply_filters_returns (base : DataFrame) (P : predicate_set) :
  ordinary (searchTerm P) = true -> Z.abs (minFunding P) < 2 ^ 1023 ->
  exists v, apply_filters base P = Returned v.
Proof.
  intros Hterm Hmin. unfold apply_filters, final_df.
  rewrite (search_with_ordinary_term _ _ Hterm). cbn [obind].
  unfold funding_filter. destruct (0 <? minFunding P); [|eauto].
  destruct (threshold_returns _ Hmin) as [t ->]. cbn [obind]. eauto.
Qed.

(** * Further properties of the script *)

(** ** The sidebar options *)

Lemma unique_snoc (column : list cell) (k : cell) :
  Pd.unique (column ++ [k]) =
    (if Pd.isin (Pd.unique column) k then Pd.unique column
     else Pd.unique column ++ [k])%list.
Proof.
  unfold Pd.unique. now rewrite fold_left_app.
Qed.

(** The table of counters has the sidebar options as its keys. *)
Lemma tally_keys (column : list cell) :
  map fst (Pd.tally column) = Pd.unique column.
Proof.
  induction column as [|k column IH] using rev_ind; [reflexivity|].
  rewrite tally_snoc, keys_bump, unique_snoc, IH.
  destruct (in_dec cell_dec k (Pd.unique column)) as [Hin|Hin].
  - apply isin_In in Hin. now rewrite Hin.
  - destruct (Pd.isin (Pd.unique column) k) eqn:E; [|reflexivity].
    apply isin_In in E. contradiction.
Qed.

(** X1: the options a sidebar widget offers are the values of its column,
    each once, in the order in which they first appear in the catalog. *)
Theorem sidebar_options_distinct_complete_ordered
  (df : DataFrame) (field : company -> cell) :
  let options := Pd.unique (col field df) in
  NoDup options
  /\ (forall v, In v options <-> exists c, In c df /\ field c = v)
  /\ StronglySorted
       (fun a b => (first_index a (col field df) < first_index b (col field df))%nat)
       options
  /\ available_fuel_sources df = Pd.unique (col fuel_source df)
  /\ available_approaches df = Pd.unique (col general_approach df).
Proof.
  intros options. subst options.
  destruct (tally_spec (col field df)) as [_ [Hnodup [_ [_ [_ Hsorted]]]]].
  rewrite tally_keys in Hnodup, Hsorted.
  split; [exact Hnodup|]. split; [|split; [exact Hsorted|split; reflexivity]].
  intros v. rewrite unique_In. unfold col. rewrite in_map_iff.
  split; intros [c [H1 H2]]; exists c; tauto.
Qed.

(** ** The sidebar filters *)

Lemma filter_Subseq_weaker {A : Type} (p q : A -> bool) (l : list A) :
  (forall x, In x l -> p x = true -> q x = true) ->
  Subseq (filter p l) (filter q l).
Proof.
  induction l as [|x l IH]; simpl; intros H; [constructor|].
  assert (IH' : Subseq (filter p l) (filter q l))
    by (apply IH; intros y Hy; apply H; now right).
  destruct (p x) eqn:Hp.
  - rewrite (H x (or_introl eq_refl) Hp). now constructor.
  - destruct (q x); [now constructor|assumption].
Qed.

(** X2: a record is in the filtered view exactly when it is in the catalog
    and both its fuel source and its approach are selected; selecting more
    values can only add records, the ones already shown staying in place. *)
Theorem sidebar_view_membership_and_growth
  (df : DataFrame) (fuels fuels' approaches approaches' : list cell) :
  (forall c, In c (filtered_df df fuels approaches) <->
             In c df /\ In (fuel_source c) fuels /\ In (general_approach c) approaches)
  /\ (selection_within fuels fuels' -> selection_within approaches approaches' ->
      Subseq (filtered_df df fuels approaches) (filtered_df df fuels' approaches')).
Proof.
  rewrite !filtered_df_filter. split.
  - intros c. rewrite filter_In. unfold in_sidebar_selection.
    rewrite andb_true_iff, !isin_In. tauto.
  - intros Hf Ha. apply filter_Subseq_weaker. intros c _.
    unfold in_sidebar_selection. rewrite !andb_true_iff, !isin_In.
    intros [H1 H2]. split; [now apply Hf|now apply Ha].
Qed.

Lemma sidebar_view_membership_and_growth_witness :
  Subseq (filtered_df Sample.four [text "D-T"] [text "Magnetic"])
         (filtered_df Sample.four [text "D-He3"; text "D-T"]
            [text "Magnetic"; text "Magneto-inertial"]).
Proof.
  apply (sidebar_view_membership_and_growth Sample.four).
  - intros v [<-|[]]. simpl. tauto.
  - intros v [<-|[]]. simpl. tauto.
Defined.

(** ** Bars and filters agree *)




(** ** The filters of the third tab *)

Lemma search_filter_returned (term : string) (view found : DataFrame) :
  search_filter view term = Returned found ->
  exists q, forall other, search_filter other term = Returned (filter q other).
Proof.
  intros H. destruct (search_filter_is_filter term) as [Hq|Hfail];
    [assumption|exfalso; exact (Hfail _ _ H)].
Qed.

Lemma funding_filter_returned (m : Z) (view kept : DataFrame) :
  funding_filter view m = Returned kept ->
  exists q, forall other, funding_filter other m = Returned (filter q other).
Proof.
  intros H. destruct (funding_filter_is_filter m) as [Hq|Hfail];
    [assumption|exfalso; exact (Hfail _ _ H)].
Qed.

Lemma filter_swap {A : Type} (p q : A -> bool) (l : list A) :
  filter p (filter q l) = filter q (filter p l).
Proof.
  rewrite !filter_filter_and. apply filter_ext. intros x. apply andb_comm.
Qed.

(** X4: the order of the filters does not matter.  When the search followed
    by the threshold gives a view, the threshold followed by the search gives
    the same view; and applying the sidebar filters last instead of first
    gives the same view as well. *)
Theorem filters_commute
  (base : DataFrame) (P : predicate_set) (found final : DataFrame) :
  let view := filtered_df base (fuelSources P) (approaches P) in
  search_filter view (searchTerm P) = Returned found ->
  funding_filter found (minFunding P) = Returned final ->
  (exists rich, funding_filter view (minFunding P) = Returned rich
                /\ search_filter rich (searchTerm P) = Returned final)
  /\ (exists late, final_df base (searchTerm P) (minFunding P) = Returned late
                   /\ filtered_df late (fuelSources P) (approaches P) = final).
Proof.
  intros view Hs Hf.
  destruct (search_filter_returned _ _ _ Hs) as [q2 H2].
  destruct (funding_filter_returned _ _ _ Hf) as [q3 H3].
  rewrite H2 in Hs. injection Hs as <-. rewrite H3 in Hf. injection Hf as <-.
  split.
  - exists (filter q3 view). split; [apply H3|]. rewrite H2. f_equal. apply filter_swap.
  - exists (filter q3 (filter q2 base)). split.
    + unfold final_df. rewrite H2. cbn [obind]. apply H3.
    + unfold view. rewrite !filtered_df_filter.
      rewrite (filter_swap _ q3), (filter_swap _ q2). reflexivity.
Qed.

Lemma filters_commute_witness :
  exists late,
    final_df Sample.four "ENERGY" 332 = Returned late
    /\ filtered_df late [text "D-T"] [text "Magnetic"; text "Magneto-inertial"]
       = [Sample.tokamak; Sample.general].
Proof.
  apply (filters_commute Sample.four Sample.DT_energy_332
           [Sample.zap; Sample.tokamak; Sample.general]);
    vm_compute; reflexivity.
Defined.

Lemma fge_nan (t : Py.float) : Py.fge Py.nan t = false.
Proof.
  destruct t as [s|s| |s m e]; reflexivity.
Qed.

(** X5: a threshold of zero keeps every record, those without a funding
    amount included; under any positive threshold only records of the view
    that have a funding amount are kept. *)
Theorem funding_threshold_and_missing_amounts (view : DataFrame) (m : Z) :
  (m <= 0 -> funding_filter view m = Returned view)
  /\ (0 < m -> forall kept, funding_filter view m = Returned kept ->
      Subseq kept view /\ forall c, In c kept -> funded c = true).
Proof.
  unfold funding_filter. split; intros Hm.
  - destruct (Z.ltb_spec 0 m); [lia|reflexivity].
  - destruct (Z.ltb_spec 0 m); [|lia]. intros kept Hkept.
    destruct (threshold m) as [t|e|]; cbn [obind] in Hkept; try discriminate.
    injection Hkept as <-. unfold col. rewrite map_map, select_map.
    split; [apply filter_Subseq|].
    intros c Hc. apply filter_In in Hc. destruct Hc as [_ Hc].
    unfold funded. destruct (funding_amount c); try reflexivity.
    now rewrite fge_nan in Hc.
Qed.

Lemma funding_threshold_and_missing_amounts_witness :
  funding_filter More.five 0 = Returned More.five
  /\ forall c, In c [Sample.helion; Sample.tokamak; Sample.general] -> funded c = true.
Proof.
  destruct (funding_threshold_and_missing_amounts More.five 0) as [H0 _].
  destruct (funding_threshold_and_missing_amounts More.five 332) as [_ H1].
  split; [apply H0; lia|].
  apply (H1 ltac:(lia) [Sample.helion; Sample.tokamak; Sample.general]).
  vm_compute. reflexivity.
Defined.

Lemma same_nocase_truthy (a b : string) :
  same_nocase a b = true -> truthy a = truthy b.
Proof.
  destruct a, b; simpl; intros H; try discriminate; reflexivity.
Qed.

Lemma prefix_nocase_same (a b s : string) :
  same_nocase a b = true -> prefix_nocase a s = prefix_nocase b s.
Proof.
  revert b s. induction a as [|x a IH]; intros [|y b] [|c s]; simpl; intros H;
    try discriminate; try reflexivity.
  apply andb_prop in H. destruct H as [Hxy Hab].
  apply Ascii.eqb_eq in Hxy. rewrite Hxy. f_equal. now apply IH.
Qed.

Lemma contains_nocase_same (a b s : string) :
  same_nocase a b = true -> contains_nocase a s = contains_nocase b s.
Proof.
  intros H. induction s as [|c s IH]; simpl.
  - now rewrite (prefix_nocase_same a b).
  - now rewrite (prefix_nocase_same a b), IH.
Qed.

(** X6: the letter case of a search term of ordinary characters does not
    matter: two terms that differ in case at most find the same records. *)
Theorem search_ignores_case_of_term (view : DataFrame) (term term' : string) :
  ordinary term = true -> ordinary term' = true -> same_nocase term term' = true ->
  search_filter view term = search_filter view term'.
Proof.
  intros Ho Ho' Hsame.
  rewrite (search_with_ordinary_term _ _ Ho), (search_with_ordinary_term _ _ Ho').
  rewrite (same_nocase_truthy _ _ Hsame). destruct (truthy term'); [|reflexivity].
  f_equal. apply filter_ext. intros c.
  now rewrite !(contains_nocase_same term term').
Qed.

Lemma search_ignores_case_of_term_witness :
  search_filter Sample.four "tokamak" = search_filter Sample.four "ToKaMaK".
Proof.
  apply search_ignores_case_of_term; reflexivity.
Defined.

(** ** The selected company *)

(** X7: for a name the select box offers, the lookup gives the first record
    of the view with that name; for any other name it raises [IndexError]. *)
Theorem company_lookup (view : DataFrame) (selected : string) :
  (In selected (col name view) ->
   exists c before after,
     company_data view selected = Returned c
     /\ name c = selected
     /\ view = (before ++ c :: after)%list
     /\ forall b, In b before -> name b <> selected)
  /\ (~ In selected (col name view) -> company_data view selected = Raised IndexError).
Proof.
  unfold company_data, col. rewrite map_map, select_map.
  induction view as [|r view [IHin IHout]]; simpl.
  - split; [tauto|reflexivity].
  - destruct (String.eqb_spec selected (name r)) as [He|Hne].
    + split; [|intros H; exfalso; apply H; now left].
      intros _. exists r, [], view. repeat split; auto; intros b [].
    + split.
      * intros [H|H]; [congruence|].
        destruct (IHin H) as [c [before [after [H1 [H2 [H3 H4]]]]]].
        exists c, (r :: before), after.
        split; [exact H1|]. split; [exact H2|]. split; [now rewrite H3|].
        intros b [<-|Hb]; [congruence|now apply H4].
      * intros H. apply IHout. tauto.
Qed.

Lemma company_lookup_witness :
  exists c before after,
    company_data Sample.four "Tokamak Energy" = Returned c
    /\ name c = "Tokamak Energy"
    /\ Sample.four = (before ++ c :: after)%list
    /\ forall b, In b before -> name b <> "Tokamak Energy".
Proof.
  apply (company_lookup Sample.four "Tokamak Energy"). simpl. tauto.
Defined.

(** ** A selection that matches nothing *)

(** X10: when the sidebar selection matches no company of a catalog that
    is not empty, the run shows the four cards with zeros, says how many
    companies the catalog has, warns that nothing matches, and returns; no
    tab is drawn, and nothing the catalog holds can make this run fail. *)
Theorem empty_selection_run (df : DataFrame) (w : widgets) :
  empty df = false ->
  filtered_df df (selected_fuel_sources w) (selected_approaches w) = [] ->
  main (Companies df) w =
    ([st_title "Fusion Companies Dashboard";
      st_markdown "*Comprehensive overview of fusion energy companies worldwide*";
      st_spinner "Loading fusion companies data...";
      st_sidebar_header "Filters";
      st_sidebar_multiselect "Fuel Source:" (available_fuel_sources df);
      st_sidebar_multiselect "General Approach:" (available_approaches df);
      st_metric "Total Companies" "0";
      st_metric "Total Funding" "$0B";
      st_metric "Avg Employees" "0";
      st_metric "Avg Output" "0 MWe";
      st_info ("Showing 0 of " ++ Py.str_int (len df)
               ++ " companies based on current filters.");
      st_warning
        "No companies match the selected filters. Please adjust your filter selections."],
     Returned tt).
Proof.
  intros Hdf Hview. unfold main, dashboard.
  cbn [load_data_from_api bind emit ret app none_or_empty]. rewrite Hdf.
  rewrite Hview.
  assert (Hlen : (len [] <? len df) = true).
  { unfold len. destruct df; [discriminate|]. simpl List.length. apply Z.ltb_lt. lia. }
  rewrite Hlen. reflexivity.
Qed.

Lemma empty_selection_run_witness :
  snd (main (Companies More.five) (More.nothing_selected More.five)) = Returned tt.
Proof.
  rewrite (empty_selection_run More.five); reflexivity.
Defined.

(** ** Milestones that are shown *)

Lemma append_assoc (a b c : string) : (a ++ b) ++ c = a ++ (b ++ c).
Proof.
  induction a as [|x a IH]; simpl; [reflexivity|now rewrite IH].
Qed.

Lemma scan_literal_plain (s rest : string) :
  plain_text s = true ->
  Py.scan_literal Py.quote1 (s ++ String Py.quote1 rest) = Some (s, rest).
Proof.
  induction s as [|c s IH]; simpl; intros H.
  - reflexivity.
  - apply andb_prop in H. destruct H as [H Hs].
    apply andb_prop in H. destruct H as [H Hq].
    apply andb_prop in H. destruct H as [Hp Hb].
    apply negb_true_iff in Hq. rewrite Hq, Hp, Hb. cbn [andb].
    now rewrite (IH Hs).
Qed.

Lemma list_items_repr (l : list string) (rest s : string) (fuel : nat) :
  Forall (fun x => plain_text x = true) l ->
  (List.length l < fuel)%nat ->
  Py.skip_spaces s = items_repr l ++ rest ->
  Py.list_items fuel s = Some (l, rest).
Proof.
  revert s fuel. induction l as [|x l IH]; intros s fuel Hl Hfuel Hs.
  - destruct fuel as [|fuel]; [simpl in Hfuel; lia|].
    simpl. rewrite Hs. reflexivity.
  - destruct fuel as [|fuel]; [simpl in Hfuel; lia|].
    inversion Hl as [|? ? Hx Hl']; subst.
    cbn [Py.list_items]. rewrite Hs.
    destruct l as [|y l].
    + cbn [items_repr]. unfold quoted. cbn [append].
      change (Ascii.eqb Py.quote1 "]") with false.
      change (Py.is_quote Py.quote1) with true. cbv iota.
      rewrite !append_assoc. cbn [append].
      rewrite (scan_literal_plain _ _ Hx). reflexivity.
    + change (items_repr (x :: y :: l)) with (quoted x ++ ", " ++ items_repr (y :: l)).
      assert (Htail : Py.skip_spaces (String " " (items_repr (y :: l) ++ rest))
                      = items_repr (y :: l) ++ rest).
      { cbn [Py.skip_spaces]. destruct l; reflexivity. }
      assert (Hnext := IH (String " " (items_repr (y :: l) ++ rest)) fuel Hl'
                          ltac:(simpl in *; lia) Htail).
      set (tail := items_repr (y :: l)) in *.
      unfold quoted. cbn [append].
      change (Ascii.eqb Py.quote1 "]") with false.
      change (Py.is_quote Py.quote1) with true. cbv iota.
      rewrite !append_assoc. cbn [append].
      rewrite (scan_literal_plain _ _ Hx).
      cbn [Py.skip_spaces].
      change (Ascii.eqb "," "]") with false.
      change (Ascii.eqb "," ",") with true. cbv iota.
      rewrite Hnext. reflexivity.
Qed.

Lemma length_append (a b : string) :
  String.length (a ++ b) = (String.length a + String.length b)%nat.
Proof.
  induction a as [|x a IH]; simpl; [reflexivity|now rewrite IH].
Qed.

Lemma length_items_repr (l : list string) :
  (List.length l <= String.length (items_repr l))%nat.
Proof.
  induction l as [|x l IH]; [simpl; lia|].
  destruct l as [|y l].
  - cbn [items_repr]. rewrite length_append. simpl. lia.
  - change (items_repr (x :: y :: l)) with (quoted x ++ ", " ++ items_repr (y :: l)).
    rewrite !length_append. change (String.length ", ") with 2%nat.
    change (List.length (x :: y :: l)) with (S (List.length (y :: l))).
    lia.
Qed.

(** [eval] reads back the list a text was written from. *)
Lemma eval_list_repr (l : list string) :
  Forall (fun x => plain_text x = true) l ->
  Py.eval (list_repr l) = Returned (Py.StrList l).
Proof.
  intros Hl. unfold Py.eval, list_repr. cbn [append Py.skip_spaces].
  change (Ascii.eqb "[" "[") with true. cbv iota.
  rewrite (list_items_repr l "" (items_repr l)).
  - reflexivity.
  - assumption.
  - assert (H := length_items_repr l). lia.
  - assert (H : forall a, a ++ "" = a).
    { induction a; simpl; [reflexivity|now f_equal]. }
    rewrite H. destruct l as [|x [|y l]]; reflexivity.
Qed.

Lemma for_each_emit {A : Type} (l : list A) (f : A -> call) :
  for_each l (fun x => emit (f x)) = (map f l, Returned tt).
Proof.
  induction l as [|x l IH]; [reflexivity|].
  cbn [for_each bind emit map]. rewrite IH. reflexivity.
Qed.

(** X11: milestones that arrive as a list, or as the text Python writes for
    a list of plain strings, are shown one per line, in their order, each
    after the bullet. *)
Theorem milestones_are_listed (c : company) (l : list string) :
  milestones_past_12_months c = MilestonesList l
  \/ (milestones_past_12_months c = MilestonesStr (list_repr l)
      /\ Forall (fun x => plain_text x = true) l) ->
  (ms <- lift (milestones c) ;;
   for_each (Py.iterate ms) (fun milestone => emit (st_write (bullet ++ milestone))))
  = (map (fun milestone => st_write (bullet ++ milestone)) l, Returned tt).
Proof.
  intros H. unfold milestones.
  assert (Hm : match milestones_past_12_months c with
               | MilestonesStr s => Py.eval s
               | MilestonesList l0 => Returned (Py.StrList l0)
               end = Returned (Py.StrList l)).
  { destruct H as [->|[-> Hl]]; [reflexivity|now apply eval_list_repr]. }
  rewrite Hm. cbn [lift bind Py.iterate]. now rewrite for_each_emit.
Qed.

Lemma milestones_are_listed_witness :
  (ms <- lift (milestones More.unfunded) ;;
   for_each (Py.iterate ms) (fun milestone => emit (st_write (bullet ++ milestone))))
  = ([st_write (bullet ++ "Seed round"); st_write (bullet ++ "First plasma")],
     Returned tt).
Proof.
  apply (milestones_are_listed More.unfunded ["Seed round"; "First plasma"]).
  right. split; [reflexivity|]. repeat constructor.
Defined.

(** ** Charts and options *)

Lemma isin_present (seen : list cell) (k : cell) :
  is_text k = true -> Pd.isin (filter is_text seen) k = Pd.isin seen k.
Proof.
  intros Hk. unfold Pd.isin. induction seen as [|x seen IH]; [reflexivity|].
  destruct x as [s|]; cbn [filter is_text existsb]; [now rewrite IH|].
  rewrite IH. destruct k; [reflexivity|discriminate].
Qed.

(** Dropping the missing cells before or after taking the distinct values
    is the same. *)
Lemma unique_present (column : list cell) :
  Pd.unique (filter is_text column) = filter is_text (Pd.unique column).
Proof.
  induction column as [|k column IH] using rev_ind; [reflexivity|].
  rewrite filter_app, unique_snoc. cbn [filter].
  destruct (is_text k) eqn:Hk.
  - rewrite unique_snoc, IH, isin_present by assumption.
    destruct (Pd.isin (Pd.unique column) k); [reflexivity|].
    rewrite filter_app. cbn [filter]. now rewrite Hk.
  - rewrite app_nil_r, IH.
    destruct (Pd.isin (Pd.unique column) k); [reflexivity|].
    rewrite filter_app. cbn [filter]. rewrite Hk. now rewrite app_nil_r.
Qed.

(** X13: the categories of the two distribution charts are the options the
    sidebar would offer for the view, the missing value left out: the same
    values, each once. *)
Theorem chart_categories_are_the_present_options (view : DataFrame) :
  Permutation (map fst (approach_counts view))
              (filter is_text (available_approaches view))
  /\ Permutation (map fst (fuel_counts view))
                 (filter is_text (available_fuel_sources view)).
Proof.
  unfold approach_counts, fuel_counts, available_approaches, available_fuel_sources,
    Pd.value_counts, Pd.value_counts_with.
  split; rewrite <- unique_present, <- tally_keys; apply Permutation_map, sort_desc_perm.
Qed.

(** ** What the search finds *)

(** X14: for a term of ordinary characters that is not empty, the search
    returns, keeps the order of the view, and keeps exactly the records whose
    name or description contains the term, letter case ignored; an empty
    term keeps the whole view. *)
Theorem search_finds_name_or_description (view : DataFrame) (term : string) :
  search_filter view "" = Returned view
  /\ (ordinary term = true -> truthy term = true ->
      exists found,
        search_filter view term = Returned found
        /\ Subseq found view
        /\ forall c, In c found <->
                     In c view /\ (contains_nocase term (name c) = true
                                   \/ contains_nocase term (description c) = true)).
Proof.
  split; [reflexivity|]. intros Ho Ht.
  rewrite (search_with_ordinary_term _ _ Ho), Ht.
  eexists. split; [reflexivity|]. split; [apply filter_Subseq|].
  intros c. rewrite filter_In, orb_true_iff. tauto.
Qed.

Lemma search_finds_name_or_description_witness :
  exists found,
    search_filter Sample.four "FUSION" = Returned found
    /\ Subseq found Sample.four
    /\ forall c, In c found <->
                 In c Sample.four /\ (contains_nocase "FUSION" (name c) = true
                                      \/ contains_nocase "FUSION" (description c) = true).
Proof.
  apply (search_finds_name_or_description Sample.four "FUSION"); reflexivity.
Defined.
